(** * Incident reporter: validation engine, document-model mapper and
      page-flow renderer

    A shallow embedding of
    - [shared/src/validation/index.ts]  (the rule engine),
    - [shared/src/utils/index.ts]       (display helpers),
    - the PDF builder module            (the mapper and the layout loop),
    together with the properties of these functions that the design
    document states.

    Conventions of the embedding.
    - A JavaScript string is a [string]; every character stands for one
      code unit in the range 0..255.
    - A property that may be [undefined] at run time is an [option].  The
      fields which the TypeScript interfaces declare without [?] but which
      the validator itself tests for absence are options as well, since
      that is the input the validator is written for.
    - A string-literal union the code dispatches on is an inductive type.
    - JavaScript numbers, the [Date] parser and the local calendar belong to
      the host; they are variables of the section [Host].
    - An array built with [push] is a list that grows at the right.  The
      module [Store] has the validation functions once more with their
      arrays as objects in a store, and they are shown to compute the same
      lists. *)

From stdpp Require Import base list strings pretty.
From Stdlib Require Import Ascii QArith.

Close Scope Q_scope.
Local Open Scope string_scope.
Local Open Scope list_scope.

(** ** JavaScript strings *)

Module Js.

(** [WhiteSpace] and [LineTerminator] code units below 256: TAB, LF, VT, FF,
    CR, SP and NBSP.  This is the class [\s] of regular expressions and the
    set that [String.prototype.trim] strips. *)
Definition isWhiteSpace (c : ascii) : bool :=
  let n := nat_of_ascii c in
  (Nat.leb 9 n && Nat.leb n 13) || Nat.eqb n 32 || Nat.eqb n 160.

Fixpoint trimStart (s : string) : string :=
  match s with
  | EmptyString => EmptyString
  | String c s' => if isWhiteSpace c then trimStart s' else s
  end.

Fixpoint trimEnd (s : string) : string :=
  match s with
  | EmptyString => EmptyString
  | String c s' =>
      match trimEnd s' with
      | EmptyString => if isWhiteSpace c then EmptyString else String c EmptyString
      | t => String c t
      end
  end.

(** [s.trim()] *)
Definition trim (s : string) : string := trimEnd (trimStart s).

(** [s.replace(/\s/g, '')] *)
Fixpoint stripWhiteSpace (s : string) : string :=
  match s with
  | EmptyString => EmptyString
  | String c s' =>
      if isWhiteSpace c then stripWhiteSpace s' else String c (stripWhiteSpace s')
  end.

Definition isLower (c : ascii) : bool :=
  let n := nat_of_ascii c in Nat.leb 97 n && Nat.leb n 122.

Definition isUpper (c : ascii) : bool :=
  let n := nat_of_ascii c in Nat.leb 65 n && Nat.leb n 90.

Definition isDigit (c : ascii) : bool :=
  let n := nat_of_ascii c in Nat.leb 48 n && Nat.leb n 57.

Definition upperChar (c : ascii) : ascii :=
  if isLower c then ascii_of_nat (nat_of_ascii c - 32) else c.

(** [s.toUpperCase()], on the ASCII letters.  The code applies it to enum
    literals only. *)
Fixpoint toUpperCase (s : string) : string :=
  match s with
  | EmptyString => EmptyString
  | String c s' => String (upperChar c) (toUpperCase s')
  end.

(** [s === t] on strings *)
Definition eqs (s t : string) : bool := bool_decide (s = t).

(** ToBoolean of a possibly undefined string: [undefined] and [''] are
    falsy. *)
Definition truthy (o : option string) : bool :=
  match o with
  | None => false
  | Some s => negb (eqs s "")
  end.

(** The recurring test [!x || x.trim() === ''] *)
Definition blank (o : option string) : bool :=
  negb (truthy o) || match o with Some s => eqs (trim s) "" | None => false end.

(** ToBoolean of a possibly undefined object or enum literal *)
Definition defined {A : Type} (o : option A) : bool :=
  match o with
  | None => false
  | Some _ => true
  end.

(** [x || d] for a possibly undefined string [x] and a literal [d] *)
Definition orElse (o : option string) (d : string) : string :=
  if truthy o then default d o else d.

(** [xs.join(', ')] *)
Fixpoint join (sep : string) (xs : list string) : string :=
  match xs with
  | [] => ""
  | [x] => x
  | x :: rest => x ++ sep ++ join sep rest
  end.

(** [String(n).padStart(2, '0')] for a string that is already printed *)
Definition padStart2 (s : string) : string :=
  match String.length s with
  | 0 => "00"
  | 1 => "0" ++ s
  | _ => s
  end.

(** [xs.forEach((x, index) => body)] where the body updates the state [St];
    [index] is the index of the first element of [xs]. *)
Fixpoint forEachFrom {A St : Type} (body : A → nat → St → St)
    (xs : list A) (index : nat) (st : St) : St :=
  match xs with
  | [] => st
  | x :: rest => forEachFrom body rest (S index) (body x index st)
  end.

Definition forEach {A St : Type} (body : A → nat → St → St) (xs : list A) (st : St) : St :=
  forEachFrom body xs 0 st.

End Js.

(** ** Regular expressions

    The four patterns of the validator are anchored at both ends and use
    classes, concatenation, alternation and bounded repetition only, so
    [RegExp.prototype.test] is membership of the whole string in a regular
    language; it is decided with Brzozowski derivatives. *)

Module Regex.

Inductive regex : Type :=
| Never
| Empty
| Class (p : ascii → bool)
| Cat (r1 r2 : regex)
| Or (r1 r2 : regex)
| Many (r : regex).

Definition Opt (r : regex) : regex := Or Empty r.
Definition Some1 (r : regex) : regex := Cat r (Many r).

(** [r{n}] *)
Fixpoint Rep (n : nat) (r : regex) : regex :=
  match n with
  | 0 => Empty
  | S n' => Cat r (Rep n' r)
  end.

(** At most [n] copies of [r] *)
Fixpoint UpTo (n : nat) (r : regex) : regex :=
  match n with
  | 0 => Empty
  | S n' => Opt (Cat r (UpTo n' r))
  end.

(** [r{lo,hi}] *)
Definition Between (lo hi : nat) (r : regex) : regex :=
  Cat (Rep lo r) (UpTo (hi - lo) r).

Definition Lit (c : ascii) : regex := Class (λ x, bool_decide (x = c)).

Fixpoint Word (s : string) : regex :=
  match s with
  | EmptyString => Empty
  | String c s' => Cat (Lit c) (Word s')
  end.

Fixpoint nullable (r : regex) : bool :=
  match r with
  | Never => false
  | Empty => true
  | Class _ => false
  | Cat r1 r2 => nullable r1 && nullable r2
  | Or r1 r2 => nullable r1 || nullable r2
  | Many _ => true
  end.

Fixpoint derive (c : ascii) (r : regex) : regex :=
  match r with
  | Never => Never
  | Empty => Never
  | Class p => if p c then Empty else Never
  | Cat r1 r2 =>
      if nullable r1
      then Or (Cat (derive c r1) r2) (derive c r2)
      else Cat (derive c r1) r2
  | Or r1 r2 => Or (derive c r1) (derive c r2)
  | Many r1 => Cat (derive c r1) (Many r1)
  end.

(** [/^r$/.test(s)] *)
Fixpoint test (r : regex) (s : string) : bool :=
  match s with
  | EmptyString => nullable r
  | String c s' => test (derive c r) s'
  end.

(** Character classes *)
Definition digit : regex := Class Js.isDigit.
Definition range (lo hi : ascii) : regex :=
  Class (λ c, Nat.leb (nat_of_ascii lo) (nat_of_ascii c)
              && Nat.leb (nat_of_ascii c) (nat_of_ascii hi)).
(** [[A-Z]] under the [i] flag *)
Definition letter_i : regex := Class (λ c, Js.isUpper c || Js.isLower c).
Definition space : regex := Class Js.isWhiteSpace.

End Regex.

(** ** Data model ([shared/src/types/incident.ts])

    Each interface is a record in a module of its own, so that the fields
    keep their names.  Fields that neither the validator nor the mapper
    reads are left out. *)

Inductive IncidentCategory : Type :=
| personal_injury
| property_damage
| vehicle_incident
| public_liability.

Inductive InjurySeverity : Type := minor | moderate | severe | fatal.

Inductive YesNoUnknown : Type := yes | no | unknown.

Inductive ActionStatus : Type := open | in_progress | closed.

Inductive AttachmentType : Type := photo | video | diagram | document.

#[global] Instance IncidentCategory_eq_dec : EqDecision IncidentCategory.
Proof. solve_decision. Defined.
#[global] Instance InjurySeverity_eq_dec : EqDecision InjurySeverity.
Proof. solve_decision. Defined.
#[global] Instance AttachmentType_eq_dec : EqDecision AttachmentType.
Proof. solve_decision. Defined.

Definition InjurySeverity_str (s : InjurySeverity) : string :=
  match s with
  | minor => "minor" | moderate => "moderate" | severe => "severe" | fatal => "fatal"
  end.

Definition YesNoUnknown_str (v : YesNoUnknown) : string :=
  match v with yes => "yes" | no => "no" | unknown => "unknown" end.

Definition ActionStatus_str (s : ActionStatus) : string :=
  match s with open => "open" | in_progress => "in_progress" | closed => "closed" end.

(** A JavaScript number: every finite double is a rational; the sign of zero
    is not kept. *)
Inductive number : Type :=
| NaN
| Infinity (negative : bool)
| Finite (q : Q).

(** ToBoolean of a number: [0] and [NaN] are falsy. *)
Definition number_truthy (n : number) : bool :=
  match n with
  | NaN => false
  | Infinity _ => true
  | Finite q => negb (Qeq_bool q 0)
  end.

Module GpsCoordinates.
Record t : Type := mk { latitude : number; longitude : number }.
End GpsCoordinates.

Module IncidentLocation.
Record t : Type := mk {
  gpsCoordinates : option GpsCoordinates.t;
  manualAddress : option string;
  siteName : option string;
  department : option string;
  area : option string
}.
End IncidentLocation.

Module ReportingPerson.
Record t : Type := mk {
  name : option string;
  jobTitle : option string;
  contactNumber : option string;
  email : option string;
  employer : option string
}.
End ReportingPerson.

Module Witness.
Record t : Type := mk {
  name : string;
  contactDetails : option string;
  statement : option string
}.
End Witness.

Module TrainingDetails.
Record t : Type := mk { hasTraining : bool }.
End TrainingDetails.

Module PersonInvolved.
Record t : Type := mk {
  fullName : option string;
  age : option number;
  roleOrRelationship : option string;
  employer : option string;
  contactDetails : option string;
  relevantTraining : option TrainingDetails.t
}.
End PersonInvolved.

Module PPEUsage.
Record t : Type := mk {
  used : bool;
  types : option (list string);
  functioningProperly : option bool
}.
End PPEUsage.

Module FirstAidDetails.
Record t : Type := mk { given : bool; treatment : option string }.
End FirstAidDetails.

Module HospitalVisit.
Record t : Type := mk { wentToHospital : bool; hospitalName : option string }.
End HospitalVisit.

Module InjuryDetails.
Record t : Type := mk {
  natureOfInjury : option string;
  bodyPartsAffected : option (list string);
  severity : option InjurySeverity;
  firstAidGiven : option FirstAidDetails.t;
  hospitalVisit : option HospitalVisit.t;
  expectedLostTimeDays : option number;
  ppeUsed : option PPEUsage.t
}.
End InjuryDetails.

Module PropertyDamageDetails.
Record t : Type := mk {
  assetType : option string;
  assetDescription : option string;
  assetIdOrSerial : option string;
  extentOfDamage : option string;
  estimatedCost : option number;
  urgentRepairRequired : option bool;
  conditionBeforeIncident : string
}.
End PropertyDamageDetails.

Module VehicleDetails.
Record t : Type := mk {
  companyVehicle : option bool;
  registration : option string;
  makeModel : option string;
  driverName : option string;
  driverLicenceNumber : option string;
  policeNotified : option bool;
  policeReferenceNumber : option string;
  roadConditions : option string;
  weatherConditions : option string;
  approximateSpeedKmh : option number
}.
End VehicleDetails.

Module PublicLiabilityDetails.
Record t : Type := mk {
  reasonForBeingOnSite : option string;
  authorizedVisitor : bool;
  signedIn : bool;
  preExistingConditions : option string;
  refusedTreatment : bool
}.
End PublicLiabilityDetails.

Module IncidentDescription.
Record t : Type := mk {
  whatHappened : option string;
  sequenceOfEvents : option string;
  activityAtTime : option string;
  immediateCause : option string;
  unsafeConditions : option string;
  unsafeActs : option string;
  environmentalFactors : option string;
  equipmentFactors : option string;
  supervisionPresent : YesNoUnknown;
  areaPreviouslyInspected : YesNoUnknown
}.
End IncidentDescription.

Module RootCauseAnalysis.
Record t : Type := mk {
  directCause : option string;
  indirectCause : option string;
  underlyingRootCause : option string;
  contributingFactors : option (list string);
  preventativeMeasures : option string;
  wereControlsAdequate : option YesNoUnknown;
  controlsExplanation : option string
}.
End RootCauseAnalysis.

Module CorrectiveAction.
Record t : Type := mk {
  description : option string;
  responsiblePerson : option string;
  dueDate : option string;
  status : ActionStatus
}.
End CorrectiveAction.

Module Attachment.
Record t : Type := mk {
  uri : string;
  type : AttachmentType;
  caption : option string
}.
End Attachment.

Module Signature.
Record t : Type := mk {
  name : string;
  role : option string;
  signedAt : string;
  signatureImageUri : option string
}.
End Signature.

Module Signatures.
Record t : Type := mk {
  reporter : option Signature.t;
  investigator : option Signature.t;
  witness : option Signature.t
}.
End Signatures.

Module RIDDORAssessment.
Record t : Type := mk { isReportable : bool; reportedToHSE : bool }.
End RIDDORAssessment.

Module IncidentReport.
Record t : Type := mk {
  referenceCode : string;
  category : option IncidentCategory;
  dateOfIncident : option string;
  timeOfIncident : option string;
  location : IncidentLocation.t;
  reportedBy : option ReportingPerson.t;
  witnesses : option (list Witness.t);
  personInvolved : option PersonInvolved.t;
  injuryDetails : option InjuryDetails.t;
  propertyDamageDetails : option PropertyDamageDetails.t;
  vehicleDetails : option VehicleDetails.t;
  publicLiabilityDetails : option PublicLiabilityDetails.t;
  incidentDescription : option IncidentDescription.t;
  rootCauseAnalysis : option RootCauseAnalysis.t;
  correctiveActions : option (list CorrectiveAction.t);
  attachments : option (list Attachment.t);
  signatures : option Signatures.t;
  riddorAssessment : option RIDDORAssessment.t
}.
End IncidentReport.

Module PdfExportOptions.
Record t : Type := mk {
  summaryOnly : bool;
  includePhotos : bool;
  includeSignatures : bool;
  includeRootCause : bool;
  includeCorrectiveActions : bool;
  includeWitnessStatements : bool;
  includeAttachments : bool
}.
End PdfExportOptions.

Module ValidationError.
Record t : Type := mk {
  field : string;
  message : string;
  section : option string
}.
End ValidationError.

Module ValidationResult.
Record t : Type := mk {
  valid : bool;
  errors : list ValidationError.t;
  warnings : option (list ValidationError.t)
}.
End ValidationResult.

#[global] Instance ValidationError_eq_dec : EqDecision ValidationError.t.
Proof. solve_decision. Defined.

(** ** The validation engine ([shared/src/validation/index.ts]) *)

Import IncidentReport.

Definition err (field message section : string) : ValidationError.t :=
  ValidationError.mk field message (Some section).

(** [/^([01]?[0-9]|2[0-3]):[0-5][0-9]$/] *)
Definition timeRegex : Regex.regex :=
  Regex.Cat
    (Regex.Or (Regex.Cat (Regex.Opt (Regex.range "0" "1")) Regex.digit)
              (Regex.Cat (Regex.Lit "2") (Regex.range "0" "3")))
    (Regex.Cat (Regex.Lit ":") (Regex.Cat (Regex.range "0" "5") Regex.digit)).

(** [/^[A-Z]{2}[0-9]{2}\s?[A-Z]{3}$|^[A-Z][0-9]{1,3}\s?[A-Z]{3}$/i] *)
Definition ukRegRegex : Regex.regex :=
  Regex.Or
    (Regex.Cat (Regex.Rep 2 Regex.letter_i)
       (Regex.Cat (Regex.Rep 2 Regex.digit)
          (Regex.Cat (Regex.Opt Regex.space) (Regex.Rep 3 Regex.letter_i))))
    (Regex.Cat Regex.letter_i
       (Regex.Cat (Regex.Between 1 3 Regex.digit)
          (Regex.Cat (Regex.Opt Regex.space) (Regex.Rep 3 Regex.letter_i)))).

(** [[^\s@]] *)
Definition notSpaceNorAt : Regex.regex :=
  Regex.Class (λ c, negb (Js.isWhiteSpace c || bool_decide (c = "@"%char))).

(** [/^[^\s@]+@[^\s@]+\.[^\s@]+$/] *)
Definition emailRegex : Regex.regex :=
  Regex.Cat (Regex.Some1 notSpaceNorAt)
    (Regex.Cat (Regex.Lit "@")
       (Regex.Cat (Regex.Some1 notSpaceNorAt)
          (Regex.Cat (Regex.Lit ".") (Regex.Some1 notSpaceNorAt)))).

(** [/^(\+44|0)[0-9\s]{10,13}$/] *)
Definition ukPhoneRegex : Regex.regex :=
  Regex.Cat (Regex.Or (Regex.Word "+44") (Regex.Lit "0"))
    (Regex.Between 10 13 (Regex.Class (λ c, Js.isDigit c || Js.isWhiteSpace c))).

Definition isValidEmail (email : string) : bool := Regex.test emailRegex email.

Definition isValidUKPhone (phone : string) : bool :=
  Regex.test ukPhoneRegex (Js.stripWhiteSpace phone).

Section Validation.

(** The host's [Date]: [Date_parse s] is the time value of [new Date(s)] in
    milliseconds, [None] for an invalid date; [endOfLocalDay t] is the time
    value after [setHours(23, 59, 59, 999)] on a date whose time value is
    [t].  The reading of the clock, [new Date()], is the argument [now] of
    the functions that take one. *)
Variable Date_parse : string → option Z.
Variable endOfLocalDay : Z → Z.

(** Validate basic incident information (required for ALL categories) *)
Definition validateBasicInfo (now : Z) (incident : IncidentReport.t)
  : list ValidationError.t :=
  let errors := [] in
  let errors :=
    if negb (Js.defined incident.(category))
    then errors ++ [err "category" "Incident category is required" "Basic Information"]
    else errors in
  let errors :=
    match incident.(dateOfIncident) with
    | None | Some EmptyString =>
        errors ++ [err "dateOfIncident" "Date of incident is required" "Basic Information"]
    | Some dateOfIncident =>
        let incidentDate := Date_parse dateOfIncident in
        let today := endOfLocalDay now in
        (* [incidentDate > today]: false when the date is invalid *)
        if match incidentDate with Some t => Z.ltb today t | None => false end
        then errors ++ [err "dateOfIncident" "Incident date cannot be in the future"
                            "Basic Information"]
        else errors
    end in
  let errors :=
    match incident.(timeOfIncident) with
    | None | Some EmptyString =>
        errors ++ [err "timeOfIncident" "Time of incident is required" "Basic Information"]
    | Some timeOfIncident =>
        if negb (Regex.test timeRegex timeOfIncident)
        then errors ++ [err "timeOfIncident" "Time must be in HH:mm format (24-hour)"
                            "Basic Information"]
        else errors
    end in
  let errors :=
    if negb (Js.defined incident.(location).(IncidentLocation.gpsCoordinates))
       && negb (Js.truthy incident.(location).(IncidentLocation.manualAddress))
    then errors ++ [err "location" "Location is required (GPS or manual address)"
                        "Basic Information"]
    else errors in
  let whatHappened := incident.(incidentDescription) ≫= IncidentDescription.whatHappened in
  let errors :=
    if Js.blank whatHappened
    then errors ++ [err "incidentDescription.whatHappened" "Incident description is required"
                        "Incident Description"]
    else if Nat.ltb (String.length (default "" whatHappened)) 20
    then errors ++ [err "incidentDescription.whatHappened"
                        "Incident description must be at least 20 characters"
                        "Incident Description"]
    else errors in
  let errors :=
    if Js.blank (incident.(reportedBy) ≫= ReportingPerson.name)
    then errors ++ [err "reportedBy.name" "Reporter name is required" "Basic Information"]
    else errors in
  errors.

(** Validate personal injury specific fields *)
Definition validatePersonalInjury (incident : IncidentReport.t) : list ValidationError.t :=
  let errors := [] in
  let errors :=
    if Js.blank (incident.(personInvolved) ≫= PersonInvolved.fullName)
    then errors ++ [err "personInvolved.fullName" "Injured person's name is required"
                        "Person Involved"]
    else errors in
  let errors :=
    if Js.blank (incident.(injuryDetails) ≫= InjuryDetails.natureOfInjury)
    then errors ++ [err "injuryDetails.natureOfInjury" "Nature of injury is required"
                        "Injury Details"]
    else errors in
  let errors :=
    if negb (Js.defined (incident.(injuryDetails) ≫= InjuryDetails.severity))
    then errors ++ [err "injuryDetails.severity" "Injury severity is required"
                        "Injury Details"]
    else errors in
  let errors :=
    match incident.(injuryDetails) ≫= InjuryDetails.bodyPartsAffected with
    | None | Some [] =>
        errors ++ [err "injuryDetails.bodyPartsAffected"
                       "At least one affected body part must be selected" "Injury Details"]
    | Some _ => errors
    end in
  let errors :=
    if negb (Js.defined (incident.(injuryDetails) ≫= InjuryDetails.ppeUsed))
    then errors ++ [err "injuryDetails.ppeUsed" "PPE usage information is required"
                        "Injury Details"]
    else errors in
  errors.

(** Validate public liability specific fields *)
Definition validatePublicLiability (incident : IncidentReport.t) : list ValidationError.t :=
  let errors := [] in
  let errors :=
    if Js.blank (incident.(personInvolved) ≫= PersonInvolved.fullName)
    then errors ++ [err "personInvolved.fullName" "Name of public member is required"
                        "Person Involved"]
    else errors in
  let errors :=
    if Js.blank (incident.(publicLiabilityDetails)
                   ≫= PublicLiabilityDetails.reasonForBeingOnSite)
    then errors ++ [err "publicLiabilityDetails.reasonForBeingOnSite"
                        "Reason for being on site is required" "Public Liability Details"]
    else errors in
  let errors :=
    if Js.truthy (incident.(injuryDetails) ≫= InjuryDetails.natureOfInjury)
    then
      if negb (Js.defined (incident.(injuryDetails) ≫= InjuryDetails.severity))
      then errors ++ [err "injuryDetails.severity"
                          "Injury severity is required when injury is reported"
                          "Injury Details"]
      else errors
    else errors in
  errors.

(** Validate property damage specific fields *)
Definition validatePropertyDamage (incident : IncidentReport.t) : list ValidationError.t :=
  let errors := [] in
  let errors :=
    if Js.blank (incident.(propertyDamageDetails) ≫= PropertyDamageDetails.assetDescription)
    then errors ++ [err "propertyDamageDetails.assetDescription"
                        "Description of damaged property is required"
                        "Property Damage Details"]
    else errors in
  let errors :=
    if Js.blank (incident.(propertyDamageDetails) ≫= PropertyDamageDetails.extentOfDamage)
    then errors ++ [err "propertyDamageDetails.extentOfDamage" "Extent of damage is required"
                        "Property Damage Details"]
    else errors in
  let errors :=
    if Js.blank (incident.(propertyDamageDetails) ≫= PropertyDamageDetails.assetType)
    then errors ++ [err "propertyDamageDetails.assetType" "Asset type is required"
                        "Property Damage Details"]
    else errors in
  let errors :=
    if negb (Js.defined (incident.(propertyDamageDetails)
                           ≫= PropertyDamageDetails.urgentRepairRequired))
    then errors ++ [err "propertyDamageDetails.urgentRepairRequired"
                        "Please indicate if urgent repair is required"
                        "Property Damage Details"]
    else errors in
  errors.

(** Validate vehicle incident specific fields *)
Definition validateVehicleIncident (incident : IncidentReport.t) : list ValidationError.t :=
  let errors := [] in
  let registration := incident.(vehicleDetails) ≫= VehicleDetails.registration in
  let errors :=
    if Js.blank registration
    then errors ++ [err "vehicleDetails.registration" "Vehicle registration is required"
                        "Vehicle Details"]
    else
      if negb (Regex.test ukRegRegex (Js.stripWhiteSpace (default "" registration)))
      then errors ++ [err "vehicleDetails.registration"
                          "Please enter a valid UK vehicle registration" "Vehicle Details"]
      else errors in
  let errors :=
    if Js.blank (incident.(vehicleDetails) ≫= VehicleDetails.driverName)
    then errors ++ [err "vehicleDetails.driverName" "Driver name is required"
                        "Vehicle Details"]
    else errors in
  let errors :=
    if negb (Js.defined (incident.(vehicleDetails) ≫= VehicleDetails.companyVehicle))
    then errors ++ [err "vehicleDetails.companyVehicle"
                        "Please indicate if this is a company vehicle" "Vehicle Details"]
    else errors in
  let errors :=
    if negb (Js.defined (incident.(vehicleDetails) ≫= VehicleDetails.policeNotified))
    then errors ++ [err "vehicleDetails.policeNotified"
                        "Please indicate if police were notified" "Vehicle Details"]
    else errors in
  (* If police notified, reference number is recommended *)
  let errors :=
    if default false (incident.(vehicleDetails) ≫= VehicleDetails.policeNotified)
       && Js.blank (incident.(vehicleDetails) ≫= VehicleDetails.policeReferenceNumber)
    then errors ++ [err "vehicleDetails.policeReferenceNumber"
                        "Police reference number is strongly recommended when police are notified"
                        "Vehicle Details"]
    else errors in
  errors.

(** The body of the [forEach] over the corrective actions *)
Definition checkCorrectiveAction (action : CorrectiveAction.t) (index : nat)
    (errors : list ValidationError.t) : list ValidationError.t :=
  let errors :=
    if Js.blank action.(CorrectiveAction.description)
    then errors ++ [err ("correctiveActions[" ++ pretty index ++ "].description")
                        ("Corrective action " ++ pretty (index + 1)
                           ++ ": Description is required")
                        "Corrective Actions"]
    else errors in
  let errors :=
    if Js.blank action.(CorrectiveAction.responsiblePerson)
    then errors ++ [err ("correctiveActions[" ++ pretty index ++ "].responsiblePerson")
                        ("Corrective action " ++ pretty (index + 1)
                           ++ ": Responsible person is required")
                        "Corrective Actions"]
    else errors in
  errors.

(** Validate fields required for full investigation PDF *)
Definition validateInvestigationFields (incident : IncidentReport.t)
  : list ValidationError.t :=
  let errors := [] in
  let errors :=
    if Js.blank (incident.(rootCauseAnalysis) ≫= RootCauseAnalysis.directCause)
    then errors ++ [err "rootCauseAnalysis.directCause"
                        "Direct cause is required for investigation report"
                        "Root Cause Analysis"]
    else errors in
  let errors :=
    if Js.blank (incident.(rootCauseAnalysis) ≫= RootCauseAnalysis.underlyingRootCause)
    then errors ++ [err "rootCauseAnalysis.underlyingRootCause"
                        "Underlying root cause is required for investigation report"
                        "Root Cause Analysis"]
    else errors in
  let errors :=
    if negb (Js.defined (incident.(rootCauseAnalysis)
                           ≫= RootCauseAnalysis.wereControlsAdequate))
    then errors ++ [err "rootCauseAnalysis.wereControlsAdequate"
                        "Assessment of existing controls is required" "Root Cause Analysis"]
    else errors in
  let errors :=
    match incident.(correctiveActions) with
    | None | Some [] =>
        errors ++ [err "correctiveActions"
                       "At least one corrective action is required for investigation report"
                       "Corrective Actions"]
    | Some correctiveActions => Js.forEach checkCorrectiveAction correctiveActions errors
    end in
  errors.

(** The body of the [forEach] over the witnesses *)
Definition checkWitness (witness : Witness.t) (index : nat)
    (warnings : list ValidationError.t) : list ValidationError.t :=
  if Js.blank witness.(Witness.statement)
  then warnings ++ [err ("witnesses[" ++ pretty index ++ "].statement")
                        ("Witness " ++ pretty (index + 1) ++ ": Statement is recommended")
                        "Witnesses"]
  else warnings.

(** Additional validation checks (warnings, not errors) *)
Definition generateWarnings (incident : IncidentReport.t) : list ValidationError.t :=
  let warnings := [] in
  let email := incident.(reportedBy) ≫= ReportingPerson.email in
  let warnings :=
    if Js.truthy email && negb (isValidEmail (default "" email))
    then warnings ++ [err "reportedBy.email" "Email format appears invalid"
                          "Basic Information"]
    else warnings in
  let contactNumber := incident.(reportedBy) ≫= ReportingPerson.contactNumber in
  let warnings :=
    if Js.truthy contactNumber && negb (isValidUKPhone (default "" contactNumber))
    then warnings ++ [err "reportedBy.contactNumber" "Phone number format appears invalid"
                          "Basic Information"]
    else warnings in
  let warnings :=
    match incident.(witnesses) with
    | None | Some [] => warnings
    | Some witnesses => Js.forEach checkWitness witnesses warnings
    end in
  let warnings :=
    match incident.(attachments) with
    | None | Some [] =>
        warnings ++ [err "attachments" "Consider adding photos or other evidence"
                         "Attachments"]
    | Some _ => warnings
    end in
  let severity := incident.(injuryDetails) ≫= InjuryDetails.severity in
  (* [a && b || c] groups as [(a && b) || c] *)
  let warnings :=
    if (bool_decide (incident.(category) = Some personal_injury)
        && bool_decide (severity = Some severe))
       || bool_decide (severity = Some fatal)
    then
      if negb (Js.defined incident.(riddorAssessment))
      then warnings ++ [err "riddorAssessment"
                            "Serious injury may be RIDDOR reportable - ensure HSE notification is considered"
                            "Legal Compliance"]
      else warnings
    else warnings in
  warnings.

(** Main validation function for incident reports *)
Definition validateIncident (now : Z) (incident : IncidentReport.t) : ValidationResult.t :=
  let errors := [] in
  let errors := errors ++ validateBasicInfo now incident in
  let errors :=
    match incident.(category) with
    | Some personal_injury => errors ++ validatePersonalInjury incident
    | Some public_liability => errors ++ validatePublicLiability incident
    | Some property_damage => errors ++ validatePropertyDamage incident
    | Some vehicle_incident => errors ++ validateVehicleIncident incident
    | None => errors
    end in
  let warnings := generateWarnings incident in
  {| ValidationResult.valid := Nat.eqb (length errors) 0;
     ValidationResult.errors := errors;
     ValidationResult.warnings := Some warnings |}.

(** Validate incident for PDF export *)
Definition validateIncidentForPDF (now : Z) (incident : IncidentReport.t)
    (options : PdfExportOptions.t) : ValidationResult.t :=
  let errors := [] in
  let basicValidation := validateIncident now incident in
  let errors := errors ++ basicValidation.(ValidationResult.errors) in
  let errors :=
    if negb options.(PdfExportOptions.summaryOnly)
    then errors ++ validateInvestigationFields incident
    else errors in
  let errors :=
    if options.(PdfExportOptions.includeSignatures)
    then
      let errors :=
        if negb (Js.defined (incident.(signatures) ≫= Signatures.reporter))
        then errors ++ [err "signatures.reporter"
                            "Reporter signature is required for PDF export" "Signatures"]
        else errors in
      let errors :=
        if negb options.(PdfExportOptions.summaryOnly)
           && negb (Js.defined (incident.(signatures) ≫= Signatures.investigator))
        then errors ++ [err "signatures.investigator"
                            "Investigator signature is required for full investigation PDF"
                            "Signatures"]
        else errors in
      errors
    else errors in
  let errors :=
    if options.(PdfExportOptions.includePhotos)
       && match incident.(attachments) with
          | None => true
          | Some attachments =>
              Nat.eqb (length (filter (λ a, a.(Attachment.type) = photo) attachments)) 0
          end
    then errors ++ [err "attachments" "No photos available to include in PDF" "Attachments"]
    else errors in
  {| ValidationResult.valid := Nat.eqb (length errors) 0;
     ValidationResult.errors := errors;
     ValidationResult.warnings := basicValidation.(ValidationResult.warnings) |}.

End Validation.

(** ** The validation engine, with its arrays in a store

    The functions of the validation module build their results in arrays:
    each one allocates an array, mutates it with [push] and returns a
    reference to it, and [validateIncident] copies the arrays of the rule
    functions into its own with [push(...)].  Here the arrays live in a
    store and a reference is an index into it; the store holds every array
    that was ever allocated, by this call or by any earlier one.  The
    clock that [new Date()] reads is part of the world too.  The incident
    is only ever read, so it stays a value; and the patterns are literals
    without the [g] flag, but for the one that is the argument of [replace],
    so testing a string leaves no state behind. *)

Module Store.

Definition ref : Type := nat.

Record world : Type := mkWorld {
  clock : Z;
  arrays : list (list ValidationError.t)
}.

(** A computation: from the world before to a result and the world after *)
Record M (A : Type) : Type := mkM { run : world → A * world }.
Arguments mkM {A} run.
Arguments run {A} m w.

#[global] Instance M_ret : MRet M := λ A a, mkM (λ w, (a, w)).
#[global] Instance M_bind : MBind M := λ A B f m,
  mkM (λ w, let '(a, w') := run m w in run (f a) w').

(** The elements of the array at [r] *)
Definition elements (r : ref) (w : world) : list ValidationError.t :=
  default [] (w.(arrays) !! r).

(** [const xs = []] *)
Definition newArray : M ref :=
  mkM (λ w, (length w.(arrays), mkWorld w.(clock) (w.(arrays) ++ [[]]))).

(** [xs.push(e)] *)
Definition push (xs : ref) (e : ValidationError.t) : M unit :=
  mkM (λ w, (tt, mkWorld w.(clock) (alter (λ l, l ++ [e]) xs w.(arrays)))).

(** [xs.push(...ys)] *)
Definition pushAll (xs ys : ref) : M unit :=
  mkM (λ w, (tt, mkWorld w.(clock) (alter (λ l, l ++ elements ys w) xs w.(arrays)))).

(** [xs.length] *)
Definition arrayLength (xs : ref) : M nat :=
  mkM (λ w, (length (elements xs w), w)).

(** The time value of [new Date()] *)
Definition Date_new : M Z := mkM (λ w, (w.(clock), w)).

(** [xs.forEach((x, index) => body)] *)
Fixpoint forEachFrom {A : Type} (body : A → nat → M unit) (xs : list A) (index : nat)
  : M unit :=
  match xs with
  | [] => mret tt
  | x :: rest => body x index;; forEachFrom body rest (S index)
  end.

Definition forEach {A : Type} (body : A → nat → M unit) (xs : list A) : M unit :=
  forEachFrom body xs 0.

(** A [ValidationResult] object: the flag, and references to its two
    arrays *)
Module ValidationResultObject.
Record t : Type := mk {
  valid : bool;
  errors : ref;
  warnings : ref
}.
End ValidationResultObject.

(** What the caller reads off a result: the flag and the elements of the
    two arrays, in order *)
Definition observe (result : ValidationResultObject.t) (w : world) : ValidationResult.t :=
  {| ValidationResult.valid := result.(ValidationResultObject.valid);
     ValidationResult.errors := elements result.(ValidationResultObject.errors) w;
     ValidationResult.warnings :=
       Some (elements result.(ValidationResultObject.warnings) w) |}.

(** A call, as its caller sees it: the computation is run in the world [w]
    and the result is read off the world that the call leaves. *)
Definition call (m : M ValidationResultObject.t) (w : world) : ValidationResult.t :=
  let '(result, after) := run m w in observe result after.

Section Validation.

Variable Date_parse : string → option Z.
Variable endOfLocalDay : Z → Z.

(** Validate basic incident information (required for ALL categories) *)
Definition validateBasicInfo (incident : IncidentReport.t) : M ref :=
  errors ← newArray;
  (if negb (Js.defined incident.(category))
   then push errors (err "category" "Incident category is required" "Basic Information")
   else mret tt);;
  match incident.(dateOfIncident) with
  | None | Some EmptyString =>
      push errors (err "dateOfIncident" "Date of incident is required" "Basic Information")
  | Some dateOfIncident =>
      let incidentDate := Date_parse dateOfIncident in
      today ← Date_new;
      let today := endOfLocalDay today in
      if match incidentDate with Some t => Z.ltb today t | None => false end
      then push errors (err "dateOfIncident" "Incident date cannot be in the future"
                            "Basic Information")
      else mret tt
  end;;
  match incident.(timeOfIncident) with
  | None | Some EmptyString =>
      push errors (err "timeOfIncident" "Time of incident is required" "Basic Information")
  | Some timeOfIncident =>
      if negb (Regex.test timeRegex timeOfIncident)
      then push errors (err "timeOfIncident" "Time must be in HH:mm format (24-hour)"
                            "Basic Information")
      else mret tt
  end;;
  (if negb (Js.defined incident.(location).(IncidentLocation.gpsCoordinates))
      && negb (Js.truthy incident.(location).(IncidentLocation.manualAddress))
   then push errors (err "location" "Location is required (GPS or manual address)"
                         "Basic Information")
   else mret tt);;
  let whatHappened := incident.(incidentDescription) ≫= IncidentDescription.whatHappened in
  (if Js.blank whatHappened
   then push errors (err "incidentDescription.whatHappened" "Incident description is required"
                         "Incident Description")
   else if Nat.ltb (String.length (default "" whatHappened)) 20
   then push errors (err "incidentDescription.whatHappened"
                         "Incident description must be at least 20 characters"
                         "Incident Description")
   else mret tt);;
  (if Js.blank (incident.(reportedBy) ≫= ReportingPerson.name)
   then push errors (err "reportedBy.name" "Reporter name is required" "Basic Information")
   else mret tt);;
  mret errors.

(** Validate personal injury specific fields *)
Definition validatePersonalInjury (incident : IncidentReport.t) : M ref :=
  errors ← newArray;
  (if Js.blank (incident.(personInvolved) ≫= PersonInvolved.fullName)
   then push errors (err "personInvolved.fullName" "Injured person's name is required"
                         "Person Involved")
   else mret tt);;
  (if Js.blank (incident.(injuryDetails) ≫= InjuryDetails.natureOfInjury)
   then push errors (err "injuryDetails.natureOfInjury" "Nature of injury is required"
                         "Injury Details")
   else mret tt);;
  (if negb (Js.defined (incident.(injuryDetails) ≫= InjuryDetails.severity))
   then push errors (err "injuryDetails.severity" "Injury severity is required"
                         "Injury Details")
   else mret tt);;
  match incident.(injuryDetails) ≫= InjuryDetails.bodyPartsAffected with
  | None | Some [] =>
      push errors (err "injuryDetails.bodyPartsAffected"
                       "At least one affected body part must be selected" "Injury Details")
  | Some _ => mret tt
  end;;
  (if negb (Js.defined (incident.(injuryDetails) ≫= InjuryDetails.ppeUsed))
   then push errors (err "injuryDetails.ppeUsed" "PPE usage information is required"
                         "Injury Details")
   else mret tt);;
  mret errors.

(** Validate public liability specific fields *)
Definition validatePublicLiability (incident : IncidentReport.t) : M ref :=
  errors ← newArray;
  (if Js.blank (incident.(personInvolved) ≫= PersonInvolved.fullName)
   then push errors (err "personInvolved.fullName" "Name of public member is required"
                         "Person Involved")
   else mret tt);;
  (if Js.blank (incident.(publicLiabilityDetails)
                  ≫= PublicLiabilityDetails.reasonForBeingOnSite)
   then push errors (err "publicLiabilityDetails.reasonForBeingOnSite"
                         "Reason for being on site is required" "Public Liability Details")
   else mret tt);;
  (if Js.truthy (incident.(injuryDetails) ≫= InjuryDetails.natureOfInjury)
   then
     if negb (Js.defined (incident.(injuryDetails) ≫= InjuryDetails.severity))
     then push errors (err "injuryDetails.severity"
                           "Injury severity is required when injury is reported"
                           "Injury Details")
     else mret tt
   else mret tt);;
  mret errors.

(** Validate property damage specific fields *)
Definition validatePropertyDamage (incident : IncidentReport.t) : M ref :=
  errors ← newArray;
  (if Js.blank (incident.(propertyDamageDetails) ≫= PropertyDamageDetails.assetDescription)
   then push errors (err "propertyDamageDetails.assetDescription"
                         "Description of damaged property is required"
                         "Property Damage Details")
   else mret tt);;
  (if Js.blank (incident.(propertyDamageDetails) ≫= PropertyDamageDetails.extentOfDamage)
   then push errors (err "propertyDamageDetails.extentOfDamage" "Extent of damage is required"
                         "Property Damage Details")
   else mret tt);;
  (if Js.blank (incident.(propertyDamageDetails) ≫= PropertyDamageDetails.assetType)
   then push errors (err "propertyDamageDetails.assetType" "Asset type is required"
                         "Property Damage Details")
   else mret tt);;
  (if negb (Js.defined (incident.(propertyDamageDetails)
                          ≫= PropertyDamageDetails.urgentRepairRequired))
   then push errors (err "propertyDamageDetails.urgentRepairRequired"
                         "Please indicate if urgent repair is required"
                         "Property Damage Details")
   else mret tt);;
  mret errors.

(** Validate vehicle incident specific fields *)
Definition validateVehicleIncident (incident : IncidentReport.t) : M ref :=
  errors ← newArray;
  let registration := incident.(vehicleDetails) ≫= VehicleDetails.registration in
  (if Js.blank registration
   then push errors (err "vehicleDetails.registration" "Vehicle registration is required"
                         "Vehicle Details")
   else
     if negb (Regex.test ukRegRegex (Js.stripWhiteSpace (default "" registration)))
     then push errors (err "vehicleDetails.registration"
                           "Please enter a valid UK vehicle registration" "Vehicle Details")
     else mret tt);;
  (if Js.blank (incident.(vehicleDetails) ≫= VehicleDetails.driverName)
   then push errors (err "vehicleDetails.driverName" "Driver name is required"
                         "Vehicle Details")
   else mret tt);;
  (if negb (Js.defined (incident.(vehicleDetails) ≫= VehicleDetails.companyVehicle))
   then push errors (err "vehicleDetails.companyVehicle"
                         "Please indicate if this is a company vehicle" "Vehicle Details")
   else mret tt);;
  (if negb (Js.defined (incident.(vehicleDetails) ≫= VehicleDetails.policeNotified))
   then push errors (err "vehicleDetails.policeNotified"
                         "Please indicate if police were notified" "Vehicle Details")
   else mret tt);;
  (* If police notified, reference number is recommended *)
  (if default false (incident.(vehicleDetails) ≫= VehicleDetails.policeNotified)
      && Js.blank (incident.(vehicleDetails) ≫= VehicleDetails.policeReferenceNumber)
   then push errors (err "vehicleDetails.policeReferenceNumber"
                         "Police reference number is strongly recommended when police are notified"
                         "Vehicle Details")
   else mret tt);;
  mret errors.

(** The body of the [forEach] over the witnesses *)
Definition checkWitness (warnings : ref) (witness : Witness.t) (index : nat) : M unit :=
  if Js.blank witness.(Witness.statement)
  then push warnings (err ("witnesses[" ++ pretty index ++ "].statement")
                          ("Witness " ++ pretty (index + 1) ++ ": Statement is recommended")
                          "Witnesses")
  else mret tt.

(** Additional validation checks (warnings, not errors) *)
Definition generateWarnings (incident : IncidentReport.t) : M ref :=
  warnings ← newArray;
  let email := incident.(reportedBy) ≫= ReportingPerson.email in
  (if Js.truthy email && negb (isValidEmail (default "" email))
   then push warnings (err "reportedBy.email" "Email format appears invalid"
                           "Basic Information")
   else mret tt);;
  let contactNumber := incident.(reportedBy) ≫= ReportingPerson.contactNumber in
  (if Js.truthy contactNumber && negb (isValidUKPhone (default "" contactNumber))
   then push warnings (err "reportedBy.contactNumber" "Phone number format appears invalid"
                           "Basic Information")
   else mret tt);;
  match incident.(witnesses) with
  | None | Some [] => mret tt
  | Some witnesses => forEach (checkWitness warnings) witnesses
  end;;
  match incident.(attachments) with
  | None | Some [] =>
      push warnings (err "attachments" "Consider adding photos or other evidence"
                         "Attachments")
  | Some _ => mret tt
  end;;
  let severity := incident.(injuryDetails) ≫= InjuryDetails.severity in
  (* [a && b || c] groups as [(a && b) || c] *)
  (if (bool_decide (incident.(category) = Some personal_injury)
       && bool_decide (severity = Some severe))
      || bool_decide (severity = Some fatal)
   then
     if negb (Js.defined incident.(riddorAssessment))
     then push warnings (err "riddorAssessment"
                             "Serious injury may be RIDDOR reportable - ensure HSE notification is considered"
                             "Legal Compliance")
     else mret tt
   else mret tt);;
  mret warnings.

(** Main validation function for incident reports *)
Definition validateIncident (incident : IncidentReport.t) : M ValidationResultObject.t :=
  errors ← newArray;
  (* Basic validation (all categories) *)
  (found ← validateBasicInfo incident; pushAll errors found);;
  (* Category-specific validation *)
  match incident.(category) with
  | Some personal_injury => found ← validatePersonalInjury incident; pushAll errors found
  | Some public_liability => found ← validatePublicLiability incident; pushAll errors found
  | Some property_damage => found ← validatePropertyDamage incident; pushAll errors found
  | Some vehicle_incident => found ← validateVehicleIncident incident; pushAll errors found
  | None => mret tt
  end;;
  warnings ← generateWarnings incident;
  length ← arrayLength errors;
  mret {| ValidationResultObject.valid := Nat.eqb length 0;
          ValidationResultObject.errors := errors;
          ValidationResultObject.warnings := warnings |}.

End Validation.
End Store.


(** ** The document model and its mapper (PDF builder module) *)

(** The outcome of running code that may raise: reading a property of
    [undefined] raises a [TypeError]. *)
Inductive completion (A : Type) : Type :=
| Normal (a : A)
| TypeError.
Arguments Normal {A} a.
Arguments TypeError {A}.

#[global] Instance completion_ret : MRet completion := λ A a, Normal a.
#[global] Instance completion_bind : MBind completion := λ A B f c,
  match c with
  | Normal a => f a
  | TypeError => TypeError
  end.

(** [o.f] for an object [o] that may be [undefined] *)
Definition deref {A : Type} (o : option A) : completion A :=
  match o with
  | Some a => Normal a
  | None => TypeError
  end.

(** [xs.map(f)] for an [f] that may raise *)
Fixpoint mapM {A B : Type} (f : A → completion B) (xs : list A) : completion (list B) :=
  match xs with
  | [] => Normal []
  | x :: rest => y ← f x; ys ← mapM f rest; Normal (y :: ys)
  end.

Module Row.
Record t : Type := mk { label : string; value : option string }.
End Row.

Module PdfSection.
Record t : Type := mk { title : string; rows : list Row.t }.
End PdfSection.

Module PdfTableSection.
Record t : Type := mk {
  title : string;
  headers : list string;
  rows : list (list (option string))
}.
End PdfTableSection.

Module PdfAttachment.
Record t : Type := mk { uri : string; caption : option string }.
End PdfAttachment.

Module PdfAttachmentSection.
Record t : Type := mk { title : string; attachments : list PdfAttachment.t }.
End PdfAttachmentSection.

Module PdfSignature.
Record t : Type := mk {
  name : string;
  role : option string;
  signedAt : string;
  imageUri : option string
}.
End PdfSignature.

Module PdfSignatureSection.
Record t : Type := mk { title : string; signatures : list PdfSignature.t }.
End PdfSignatureSection.

Module PdfIncidentModel.
Record t : Type := mk {
  title : string;
  referenceCode : string;
  categoryLabel : option string;
  exportDate : string;
  (* an object literal with the keys reference, date and category, in
     insertion order *)
  headerFields : list (string * option string);
  sections : list PdfSection.t;
  rootCauseSection : option PdfSection.t;
  correctiveActionsSection : option PdfTableSection.t;
  attachmentsSection : option PdfAttachmentSection.t;
  signaturesSection : option PdfSignatureSection.t
}.
End PdfIncidentModel.

(** The argument of [formatDateUK], of type [string | Date]; a [Date] is its
    time value, [None] when the date is invalid. *)
Inductive DateArg : Type :=
| DateString (s : string)
| DateObject (d : option Z).

Definition row (label : string) (value : option string) : Row.t := Row.mk label value.
Definition rowS (label value : string) : Row.t := Row.mk label (Some value).
Definition yesNo (b : bool) : string := if b then "Yes" else "No".

(** Get category label from category value: [labels[category] || category] *)
Definition getCategoryLabel (category : option IncidentCategory) : option string :=
  match category with
  | Some personal_injury => Some "Personal Injury"
  | Some property_damage => Some "Property Damage"
  | Some vehicle_incident => Some "Vehicle Incident"
  | Some public_liability => Some "Public Liability"
  | None => None
  end.

(** Format time to UK format (HH:mm): both branches return [time]; the call
    [time.includes] raises on [undefined]. *)
Definition formatTimeUK (time : option string) : completion string :=
  time ← deref time; Normal time.

(** The pound sign, code unit 163 *)
Definition pound : string := String (ascii_of_nat 163) EmptyString.

Section Mapper.

Variable Date_parse : string → option Z.
(** [(d.getDate(), d.getMonth(), d.getFullYear())] of a valid date, in the
    local time zone *)
Variable Date_local : Z → Z * Z * Z.
(** [n.toString()] and [n.toFixed(digits)] *)
Variable number_toString : number → string.
Variable number_toFixed : number → nat → string.

(** Format date to UK format (DD/MM/YYYY) *)
Definition formatDateUK (date : option DateArg) : completion string :=
  d ← match date with
      | Some (DateString s) => Normal (Date_parse s)
      | Some (DateObject d) => Normal d
      | None => TypeError
      end;
  match d with
  | Some t =>
      let '(getDate, getMonth, getFullYear) := Date_local t in
      let day := Js.padStart2 (pretty getDate) in
      let month := Js.padStart2 (pretty (getMonth + 1)%Z) in
      let year := pretty getFullYear in
      Normal (day ++ "/" ++ month ++ "/" ++ year)%string
  | None =>
      (* every getter of an invalid date is NaN *)
      Normal ("NaN" ++ "/" ++ "NaN" ++ "/" ++ "NaN")%string
  end.

(** Format location for display *)
Definition formatLocation (incident : IncidentReport.t) : string :=
  let location := incident.(location) in
  if Js.truthy location.(IncidentLocation.manualAddress)
  then default "" location.(IncidentLocation.manualAddress)
  else
    match location.(IncidentLocation.gpsCoordinates) with
    | Some gps =>
        ("GPS: " ++ number_toFixed gps.(GpsCoordinates.latitude) 6 ++ ", "
                 ++ number_toFixed gps.(GpsCoordinates.longitude) 6)%string
    | None => "Not specified"
    end.

(** Build injury details section *)
Definition buildInjuryDetailsSection (incident : IncidentReport.t) : completion PdfSection.t :=
  injury ← deref incident.(injuryDetails);
  bodyPartsAffected ← deref injury.(InjuryDetails.bodyPartsAffected);
  severity ← deref injury.(InjuryDetails.severity);
  let ppeUsed := injury.(InjuryDetails.ppeUsed) in
  Normal {|
    PdfSection.title := "Injury Details";
    PdfSection.rows := [
      row "Nature of Injury" injury.(InjuryDetails.natureOfInjury);
      rowS "Body Parts Affected" (Js.join ", " bodyPartsAffected);
      rowS "Severity" (Js.toUpperCase (InjurySeverity_str severity));
      rowS "First Aid Given"
        (yesNo (default false (FirstAidDetails.given <$> injury.(InjuryDetails.firstAidGiven))));
      rowS "First Aid Details"
        (Js.orElse (injury.(InjuryDetails.firstAidGiven) ≫= FirstAidDetails.treatment) "N/A");
      rowS "Hospital Visit"
        (yesNo (default false
                  (HospitalVisit.wentToHospital <$> injury.(InjuryDetails.hospitalVisit))));
      rowS "Hospital Name"
        (Js.orElse (injury.(InjuryDetails.hospitalVisit) ≫= HospitalVisit.hospitalName) "N/A");
      rowS "Expected Lost Time (days)"
        (Js.orElse (number_toString <$> injury.(InjuryDetails.expectedLostTimeDays)) "N/A");
      rowS "PPE Used" (yesNo (default false (PPEUsage.used <$> ppeUsed)));
      rowS "PPE Types" (Js.orElse (Js.join ", " <$> (ppeUsed ≫= PPEUsage.types)) "N/A");
      rowS "PPE Functioning Properly"
        (yesNo (default false (ppeUsed ≫= PPEUsage.functioningProperly)))
    ] |}.

(** Build property damage section *)
Definition buildPropertyDamageSection (incident : IncidentReport.t)
  : completion PdfSection.t :=
  damage ← deref incident.(propertyDamageDetails);
  Normal {|
    PdfSection.title := "Property Damage Details";
    PdfSection.rows := [
      row "Asset Type" damage.(PropertyDamageDetails.assetType);
      row "Description" damage.(PropertyDamageDetails.assetDescription);
      rowS "Asset ID/Serial" (Js.orElse damage.(PropertyDamageDetails.assetIdOrSerial) "N/A");
      row "Extent of Damage" damage.(PropertyDamageDetails.extentOfDamage);
      rowS "Estimated Cost"
        match damage.(PropertyDamageDetails.estimatedCost) with
        | Some cost => if number_truthy cost then pound ++ number_toFixed cost 2 else "N/A"
        | None => "N/A"
        end;
      rowS "Urgent Repair Required"
        (yesNo (default false damage.(PropertyDamageDetails.urgentRepairRequired)));
      rowS "Condition Before Incident" damage.(PropertyDamageDetails.conditionBeforeIncident)
    ] |}.

(** Build vehicle details section *)
Definition buildVehicleDetailsSection (incident : IncidentReport.t)
  : completion PdfSection.t :=
  vehicle ← deref incident.(vehicleDetails);
  Normal {|
    PdfSection.title := "Vehicle Incident Details";
    PdfSection.rows := [
      row "Vehicle Registration" vehicle.(VehicleDetails.registration);
      rowS "Make/Model" (Js.orElse vehicle.(VehicleDetails.makeModel) "N/A");
      rowS "Company Vehicle" (yesNo (default false vehicle.(VehicleDetails.companyVehicle)));
      row "Driver Name" vehicle.(VehicleDetails.driverName);
      rowS "Driver Licence Number"
        (Js.orElse vehicle.(VehicleDetails.driverLicenceNumber) "N/A");
      rowS "Police Notified" (yesNo (default false vehicle.(VehicleDetails.policeNotified)));
      rowS "Police Reference" (Js.orElse vehicle.(VehicleDetails.policeReferenceNumber) "N/A");
      rowS "Road Conditions" (Js.orElse vehicle.(VehicleDetails.roadConditions) "N/A");
      rowS "Weather Conditions" (Js.orElse vehicle.(VehicleDetails.weatherConditions) "N/A");
      rowS "Approximate Speed"
        match vehicle.(VehicleDetails.approximateSpeedKmh) with
        | Some speed => if number_truthy speed then number_toString speed ++ " km/h" else "N/A"
        | None => "N/A"
        end
    ] |}.

(** Build public liability section *)
Definition buildPublicLiabilitySection (incident : IncidentReport.t)
  : completion PdfSection.t :=
  liability ← deref incident.(publicLiabilityDetails);
  Normal {|
    PdfSection.title := "Public Liability Details";
    PdfSection.rows := [
      row "Reason for Being On Site" liability.(PublicLiabilityDetails.reasonForBeingOnSite);
      rowS "Authorized Visitor" (yesNo liability.(PublicLiabilityDetails.authorizedVisitor));
      rowS "Signed In" (yesNo liability.(PublicLiabilityDetails.signedIn));
      rowS "Pre-existing Conditions"
        (Js.orElse liability.(PublicLiabilityDetails.preExistingConditions) "None reported");
      rowS "Refused Treatment" (yesNo liability.(PublicLiabilityDetails.refusedTreatment))
    ] |}.

(** Build incident description section *)
Definition buildIncidentDescriptionSection (incident : IncidentReport.t)
  : completion PdfSection.t :=
  desc ← deref incident.(incidentDescription);
  Normal {|
    PdfSection.title := "Incident Description";
    PdfSection.rows := [
      row "What Happened" desc.(IncidentDescription.whatHappened);
      rowS "Sequence of Events" (Js.orElse desc.(IncidentDescription.sequenceOfEvents) "N/A");
      rowS "Activity at Time" (Js.orElse desc.(IncidentDescription.activityAtTime) "N/A");
      rowS "Immediate Cause" (Js.orElse desc.(IncidentDescription.immediateCause) "N/A");
      rowS "Unsafe Conditions" (Js.orElse desc.(IncidentDescription.unsafeConditions) "N/A");
      rowS "Unsafe Acts" (Js.orElse desc.(IncidentDescription.unsafeActs) "N/A");
      rowS "Environmental Factors"
        (Js.orElse desc.(IncidentDescription.environmentalFactors) "N/A");
      rowS "Equipment Factors" (Js.orElse desc.(IncidentDescription.equipmentFactors) "N/A");
      rowS "Supervision Present" (YesNoUnknown_str desc.(IncidentDescription.supervisionPresent));
      rowS "Area Previously Inspected"
        (YesNoUnknown_str desc.(IncidentDescription.areaPreviouslyInspected))
    ] |}.

(** Build root cause section *)
Definition buildRootCauseSection (incident : IncidentReport.t) : completion PdfSection.t :=
  rca ← deref incident.(rootCauseAnalysis);
  Normal {|
    PdfSection.title := "Root Cause Analysis";
    PdfSection.rows := [
      rowS "Direct Cause" (Js.orElse rca.(RootCauseAnalysis.directCause) "N/A");
      rowS "Indirect Cause" (Js.orElse rca.(RootCauseAnalysis.indirectCause) "N/A");
      rowS "Underlying Root Cause"
        (Js.orElse rca.(RootCauseAnalysis.underlyingRootCause) "N/A");
      rowS "Contributing Factors"
        (Js.orElse (Js.join ", " <$> rca.(RootCauseAnalysis.contributingFactors)) "N/A");
      rowS "Preventative Measures"
        (Js.orElse rca.(RootCauseAnalysis.preventativeMeasures) "N/A");
      row "Were Controls Adequate"
        (YesNoUnknown_str <$> rca.(RootCauseAnalysis.wereControlsAdequate));
      rowS "Controls Explanation" (Js.orElse rca.(RootCauseAnalysis.controlsExplanation) "N/A")
    ] |}.

(** The body of the [forEach] over the witnesses *)
Definition pushWitnessRows (witness : Witness.t) (index : nat) (witnessRows : list Row.t)
  : list Row.t :=
  witnessRows ++ [
    rowS ("Witness " ++ pretty (index + 1) ++ " Name") witness.(Witness.name);
    rowS ("Witness " ++ pretty (index + 1) ++ " Contact")
      (Js.orElse witness.(Witness.contactDetails) "N/A");
    rowS ("Witness " ++ pretty (index + 1) ++ " Statement")
      (Js.orElse witness.(Witness.statement) "No statement provided")
  ].

(** Build witnesses section *)
Definition buildWitnessesSection (incident : IncidentReport.t) : completion PdfSection.t :=
  witnesses ← deref incident.(witnesses);
  let witnessRows := Js.forEach pushWitnessRows witnesses [] in
  Normal {| PdfSection.title := "Witness Information"; PdfSection.rows := witnessRows |}.

(** Build corrective actions table *)
Definition buildCorrectiveActionsTable (incident : IncidentReport.t)
  : completion PdfTableSection.t :=
  let headers := ["Action"; "Responsible Person"; "Due Date"; "Status"] in
  correctiveActions ← deref incident.(correctiveActions);
  rows ← mapM (λ action,
      dueDate ← (if Js.truthy action.(CorrectiveAction.dueDate)
                 then formatDateUK (DateString <$> action.(CorrectiveAction.dueDate))
                 else Normal "N/A");
      Normal [
        action.(CorrectiveAction.description);
        Some (Js.orElse action.(CorrectiveAction.responsiblePerson) "Unassigned");
        Some dueDate;
        Some (Js.toUpperCase (ActionStatus_str action.(CorrectiveAction.status)))
      ]) correctiveActions;
  Normal {|
    PdfTableSection.title := "Corrective Actions";
    PdfTableSection.headers := headers;
    PdfTableSection.rows := rows |}.

(** Build signatures section *)
Definition buildSignaturesSection (incident : IncidentReport.t)
  : completion PdfSignatureSection.t :=
  sigs ← deref incident.(signatures);
  let signatures := [] in
  signatures ←
    match sigs.(Signatures.reporter) with
    | Some reporter =>
        signedAt ← formatDateUK (Some (DateString reporter.(Signature.signedAt)));
        Normal (signatures ++ [
          {| PdfSignature.name := reporter.(Signature.name);
             PdfSignature.role := Some (Js.orElse reporter.(Signature.role) "Reporter");
             PdfSignature.signedAt := signedAt;
             PdfSignature.imageUri := reporter.(Signature.signatureImageUri) |} ])
    | None => Normal signatures
    end;
  signatures ←
    match sigs.(Signatures.investigator) with
    | Some investigator =>
        signedAt ← formatDateUK (Some (DateString investigator.(Signature.signedAt)));
        Normal (signatures ++ [
          {| PdfSignature.name := investigator.(Signature.name);
             PdfSignature.role := Some (Js.orElse investigator.(Signature.role) "Investigator");
             PdfSignature.signedAt := signedAt;
             PdfSignature.imageUri := investigator.(Signature.signatureImageUri) |} ])
    | None => Normal signatures
    end;
  signatures ←
    match sigs.(Signatures.witness) with
    | Some witness =>
        signedAt ← formatDateUK (Some (DateString witness.(Signature.signedAt)));
        Normal (signatures ++ [
          {| PdfSignature.name := witness.(Signature.name);
             PdfSignature.role := Some "Witness";
             PdfSignature.signedAt := signedAt;
             PdfSignature.imageUri := witness.(Signature.signatureImageUri) |} ])
    | None => Normal signatures
    end;
  Normal {| PdfSignatureSection.title := "Signatures";
            PdfSignatureSection.signatures := signatures |}.

(** Map IncidentReport to PdfIncidentModel.  [now] is the reading of the
    clock taken by [new Date()]. *)
Definition mapIncidentToPdfModel (now : Z) (incident : IncidentReport.t)
    (options : PdfExportOptions.t) : completion PdfIncidentModel.t :=
  let sections := [] in
  (* Basic incident information *)
  dateOfIncident ← formatDateUK (DateString <$> incident.(dateOfIncident));
  timeOfIncident ← formatTimeUK incident.(timeOfIncident);
  let sections := sections ++ [
    {| PdfSection.title := "Incident Information";
       PdfSection.rows := [
         rowS "Incident Reference" incident.(referenceCode);
         row "Category" (getCategoryLabel incident.(category));
         rowS "Date of Incident" dateOfIncident;
         rowS "Time of Incident" timeOfIncident;
         rowS "Location" (formatLocation incident);
         rowS "Site Name" (Js.orElse incident.(location).(IncidentLocation.siteName) "N/A");
         rowS "Department" (Js.orElse incident.(location).(IncidentLocation.department) "N/A");
         rowS "Area" (Js.orElse incident.(location).(IncidentLocation.area) "N/A")
       ] |} ] in
  (* Reported by *)
  reportedBy ← deref incident.(reportedBy);
  let sections := sections ++ [
    {| PdfSection.title := "Reported By";
       PdfSection.rows := [
         row "Name" reportedBy.(ReportingPerson.name);
         rowS "Job Title" (Js.orElse reportedBy.(ReportingPerson.jobTitle) "N/A");
         rowS "Contact Number" (Js.orElse reportedBy.(ReportingPerson.contactNumber) "N/A");
         rowS "Email" (Js.orElse reportedBy.(ReportingPerson.email) "N/A");
         rowS "Employer" (Js.orElse reportedBy.(ReportingPerson.employer) "N/A")
       ] |} ] in
  (* Person involved (if applicable) *)
  let sections :=
    match incident.(personInvolved) with
    | Some personInvolved =>
        sections ++ [
          {| PdfSection.title := "Person Involved";
             PdfSection.rows := [
               row "Full Name" personInvolved.(PersonInvolved.fullName);
               rowS "Age"
                 (Js.orElse (number_toString <$> personInvolved.(PersonInvolved.age)) "N/A");
               rowS "Role/Relationship"
                 (Js.orElse personInvolved.(PersonInvolved.roleOrRelationship) "N/A");
               rowS "Employer" (Js.orElse personInvolved.(PersonInvolved.employer) "N/A");
               rowS "Contact Details"
                 (Js.orElse personInvolved.(PersonInvolved.contactDetails) "N/A");
               rowS "Relevant Training"
                 (yesNo (default false
                           (TrainingDetails.hasTraining
                              <$> personInvolved.(PersonInvolved.relevantTraining))))
             ] |} ]
    | None => sections
    end in
  (* Category-specific sections *)
  sections ←
    (if bool_decide (incident.(category) = Some personal_injury)
        && Js.defined incident.(injuryDetails)
     then s ← buildInjuryDetailsSection incident; Normal (sections ++ [s])
     else Normal sections);
  sections ←
    (if bool_decide (incident.(category) = Some property_damage)
        && Js.defined incident.(propertyDamageDetails)
     then s ← buildPropertyDamageSection incident; Normal (sections ++ [s])
     else Normal sections);
  sections ←
    (if bool_decide (incident.(category) = Some vehicle_incident)
        && Js.defined incident.(vehicleDetails)
     then s ← buildVehicleDetailsSection incident; Normal (sections ++ [s])
     else Normal sections);
  sections ←
    (if bool_decide (incident.(category) = Some public_liability)
        && Js.defined incident.(publicLiabilityDetails)
     then s ← buildPublicLiabilitySection incident; Normal (sections ++ [s])
     else Normal sections);
  (* Incident description *)
  s ← buildIncidentDescriptionSection incident;
  let sections := sections ++ [s] in
  (* Witnesses (if any) *)
  sections ←
    match incident.(witnesses) with
    | None | Some [] => Normal sections
    | Some _ => s ← buildWitnessesSection incident; Normal (sections ++ [s])
    end;
  (* Build model *)
  exportDate ← formatDateUK (Some (DateObject (Some now)));
  headerDate ← formatDateUK (DateString <$> incident.(IncidentReport.dateOfIncident));
  let title :=
    if options.(PdfExportOptions.summaryOnly)
    then "Incident Summary Report"
    else "Full Incident Investigation Report" in
  let headerFields := [
    ("reference", Some incident.(referenceCode));
    ("date", Some headerDate);
    ("category", getCategoryLabel incident.(category)) ] in
  (* Root cause analysis (full report only) *)
  rootCauseSection ←
    (if negb options.(PdfExportOptions.summaryOnly)
        && options.(PdfExportOptions.includeRootCause)
        && Js.defined incident.(rootCauseAnalysis)
     then s ← buildRootCauseSection incident; Normal (Some s)
     else Normal None);
  (* Corrective actions (full report only) *)
  correctiveActionsSection ←
    (if negb options.(PdfExportOptions.summaryOnly)
        && options.(PdfExportOptions.includeCorrectiveActions)
        && Js.defined incident.(correctiveActions)
     then s ← buildCorrectiveActionsTable incident; Normal (Some s)
     else Normal None);
  (* Attachments *)
  let attachmentsSection :=
    if options.(PdfExportOptions.includeAttachments)
    then
      match incident.(attachments) with
      | None | Some [] => None
      | Some attachments =>
          Some {| PdfAttachmentSection.title := "Attachments";
                  PdfAttachmentSection.attachments :=
                    map (λ a, {| PdfAttachment.uri := a.(Attachment.uri);
                                 PdfAttachment.caption := a.(Attachment.caption) |})
                        attachments |}
      end
    else None in
  (* Signatures *)
  signaturesSection ←
    (if options.(PdfExportOptions.includeSignatures) && Js.defined incident.(signatures)
     then s ← buildSignaturesSection incident; Normal (Some s)
     else Normal None);
  Normal {|
    PdfIncidentModel.title := title;
    PdfIncidentModel.referenceCode := incident.(referenceCode);
    PdfIncidentModel.categoryLabel := getCategoryLabel incident.(category);
    PdfIncidentModel.exportDate := exportDate;
    PdfIncidentModel.headerFields := headerFields;
    PdfIncidentModel.sections := sections;
    PdfIncidentModel.rootCauseSection := rootCauseSection;
    PdfIncidentModel.correctiveActionsSection := correctiveActionsSection;
    PdfIncidentModel.attachmentsSection := attachmentsSection;
    PdfIncidentModel.signaturesSection := signaturesSection |}.

End Mapper.

(** ** The page-flow renderer (PDF builder module)

    The PDFKit document is the log of the calls made on it, in call order.
    Lengths are in points.  The vertical cursor is a rational: it starts
    finite and only ever has a constant added or is reset to the top margin.
    Horizontal positions are [number]s, because the column width of a table
    without headers is [Infinity]. *)

Local Open Scope Q_scope.

(** PDF page dimensions and margins (A4) *)
Definition PAGE_WIDTH : Q := 595.28.
Definition PAGE_HEIGHT : Q := 841.89.
Definition MARGIN_LEFT : Q := 50.
Definition MARGIN_RIGHT : Q := 50.
Definition MARGIN_TOP : Q := 50.
Definition MARGIN_BOTTOM : Q := 50.
Definition CONTENT_WIDTH : Q := PAGE_WIDTH - MARGIN_LEFT - MARGIN_RIGHT.

Module COLORS.
Definition secondary : string := "#FFB81C".
Definition text : string := "#333333".
Definition background : string := "#F5F5F5".
Definition danger : string := "#D32F2F".
End COLORS.

Module FONTS.
Definition title : Q := 24.
Definition heading1 : Q := 18.
Definition heading3 : Q := 12.
Definition body : Q := 10.
End FONTS.

(** [a > b] on finite numbers *)
Definition Qgtb (a b : Q) : bool := negb (Qle_bool a b).

(** [a + b] and [a - 5] where [a] may be infinite *)
Definition number_add (a b : number) : number :=
  match a, b with
  | NaN, _ | _, NaN => NaN
  | Infinity s, Infinity s' => if Bool.eqb s s' then Infinity s else NaN
  | Infinity s, Finite _ | Finite _, Infinity s => Infinity s
  | Finite x, Finite y => Finite (x + y)
  end.



Module TextOptions.
Record t : Type := mk {
  width : option number;
  align : option string;
  continued : option bool
}.
End TextOptions.

Inductive DrawOp : Type :=
| PDFDocument_new (size : string) (top bottom left right : Q) (info : list (string * string))
| addPage
| switchToPage (n : nat)
| fontSize (size : Q)
| fillColor (color : string)
| font (name : string)
| text (s : option string) (x : number) (y : Q) (options : TextOptions.t)
| moveTo (x y : Q)
| lineTo (x y : Q)
| stroke (color : string).

Definition Doc : Type := list DrawOp.

Definition isAddPage (op : DrawOp) : bool :=
  match op with
  | addPage => true
  | _ => false
  end.

(** Number of pages started in a log *)
Definition pagesAdded (doc : Doc) : nat := length (List.filter isAddPage doc).

(** The near-bottom thresholds of the layout loops *)
Definition SECTION_TITLE_THRESHOLD : Q := PAGE_HEIGHT - MARGIN_BOTTOM - 100.
Definition SECTION_ROW_THRESHOLD : Q := PAGE_HEIGHT - MARGIN_BOTTOM - 50.
Definition TABLE_TITLE_THRESHOLD : Q := PAGE_HEIGHT - MARGIN_BOTTOM - 150.
Definition TABLE_ROW_THRESHOLD : Q := PAGE_HEIGHT - MARGIN_BOTTOM - 30.
Definition SIGNATURES_THRESHOLD : Q := PAGE_HEIGHT - MARGIN_BOTTOM - 200.

(** [if (yPos > limit) { doc.addPage(); yPos = MARGIN_TOP; }] *)
Definition newPageIfBelow (limit : Q) (st : Doc * Q) : Doc * Q :=
  let '(doc, yPos) := st in
  if Qgtb yPos limit then (doc ++ [addPage], MARGIN_TOP) else (doc, yPos).

(** The calls that draw one label/value row at [yPos] *)
Definition drawSectionRow (row : Row.t) (yPos : Q) : list DrawOp :=
  [ fontSize FONTS.body;
    fillColor COLORS.text;
    font "Helvetica-Bold";
    text (Some (row.(Row.label) ++ ":")%string) (Finite MARGIN_LEFT) yPos
         (TextOptions.mk None None (Some false));
    font "Helvetica";
    text row.(Row.value) (Finite (MARGIN_LEFT + 150)) yPos
         (TextOptions.mk (Some (Finite (CONTENT_WIDTH - 150))) (Some "left"%string) None) ].



(** [cells.forEach(cell => { doc.text(cell, xPos, yPos, {width, align}); xPos += colWidth })] *)
Definition drawCells (cells : list (option string)) (colWidth width : number) (yPos : Q)
    (st : Doc * number) : Doc * number :=
  fold_left (λ '(doc, xPos) cell,
               (doc ++ [text cell xPos yPos
                             (TextOptions.mk (Some width) (Some "left"%string) None)],
                number_add xPos colWidth))
            cells st.







Section Document.

(** [doc.bufferedPageRange().count] belongs to PDFKit: the number of pages
    that the document has in its buffer after the calls of the log. *)
Variable bufferedPageRange_count : Doc → nat.




End Document.

Local Close Scope Q_scope.

(** ** Sample data

    A host whose [Date] parser knows one ISO date and whose local zone is
    UTC, and the records used to run the functions. *)

Definition msPerDay : Z := 86400000.

Definition sample_Date_parse (s : string) : option Z :=
  if bool_decide (s = "2026-11-01") then Some 1793491200000%Z
  else if bool_decide (s = "2027-01-01") then Some 1798761600000%Z
  else None.

Definition sample_endOfLocalDay (t : Z) : Z := (t / msPerDay * msPerDay + 86399999)%Z.

(** Noon of 1 November 2026 *)
Definition sample_now : Z := 1793534400000%Z.

Definition sample_Date_local (t : Z) : Z * Z * Z :=
  if bool_decide ((t / msPerDay)%Z = 20758%Z) then (1, 10, 2026)%Z else (1, 0, 1970)%Z.

Definition sample_number_toString (n : number) : string :=
  match n with
  | Finite q => pretty (Qnum q / Z.pos (Qden q))%Z
  | Infinity false => "Infinity"
  | Infinity true => "-Infinity"
  | NaN => "NaN"
  end.

Definition sample_number_toFixed (n : number) (digits : nat) : string :=
  sample_number_toString n.

Definition sampleLocation : IncidentLocation.t :=
  IncidentLocation.mk None (Some "Unit 4, Canal Road, Leeds") None None None.

Definition sampleReporter : ReportingPerson.t :=
  ReportingPerson.mk (Some "Alex Morgan") None None None None.

Definition sampleDescription : IncidentDescription.t :=
  IncidentDescription.mk (Some "Slipped on a wet floor by the loading bay")
    None None None None None None None unknown unknown.

Definition samplePerson : PersonInvolved.t :=
  PersonInvolved.mk (Some "Jo Bell") None (Some "employee") None None None.

Definition sampleInjury (severity : option InjurySeverity) : InjuryDetails.t :=
  InjuryDetails.mk (Some "sprain") (Some ["ankle"]) severity None None None
    (Some (PPEUsage.mk true None None)).

Definition sampleVehicle (registration : option string) (policeNotified : option bool)
    (policeReferenceNumber : option string) : VehicleDetails.t :=
  VehicleDetails.mk (Some true) registration None (Some "Sam Reed") None
    policeNotified policeReferenceNumber None None None.

Definition sampleLiability : PublicLiabilityDetails.t :=
  PublicLiabilityDetails.mk (Some "Delivery to reception") true true None false.

Definition sampleAttachment : Attachment.t := Attachment.mk "file:///evidence/1.jpg" photo None.

(** The record of the round-trip scenario: a minor personal injury reported
    on the day *)
Definition sampleInjuryIncident : IncidentReport.t :=
  IncidentReport.mk "INC-20261101-0001" (Some personal_injury)
    (Some "2026-11-01") (Some "14:30") sampleLocation (Some sampleReporter)
    None (Some samplePerson) (Some (sampleInjury (Some minor)))
    None None None (Some sampleDescription) None None None None None.

(** A vehicle incident that passes every rule but for the fields given *)
Definition sampleVehicleIncident (vehicle : VehicleDetails.t) : IncidentReport.t :=
  IncidentReport.mk "INC-20261101-0002" (Some vehicle_incident)
    (Some "2026-11-01") (Some "14:30") sampleLocation (Some sampleReporter)
    None None None None (Some vehicle) None (Some sampleDescription)
    None None (Some [sampleAttachment]) None None.

(** A member of the public injured, no RIDDOR assessment on file *)
Definition sampleLiabilityIncidentOf (severity : InjurySeverity) : IncidentReport.t :=
  IncidentReport.mk "INC-20261101-0003" (Some public_liability)
    (Some "2026-11-01") (Some "14:30") sampleLocation (Some sampleReporter)
    None (Some samplePerson) (Some (sampleInjury (Some severity)))
    None None (Some sampleLiability) (Some sampleDescription)
    None None (Some [sampleAttachment]) None None.

Definition sampleLiabilityIncident : IncidentReport.t := sampleLiabilityIncidentOf severe.

Definition fullReportOptions : PdfExportOptions.t :=
  PdfExportOptions.mk false false false true true true true.

(** *** Auxiliary definitions used in the statements *)

(** What a pushing [forEach] body appends, element by element *)
Fixpoint pushedFrom {A B : Type} (pushed : A → nat → list B) (xs : list A) (index : nat)
  : list B :=
  match xs with
  | [] => []
  | x :: rest => pushed x index ++ pushedFrom pushed rest (S index)
  end.

(** [{ ...vehicle, registration }] *)
Definition VehicleDetails_withRegistration (vehicle : VehicleDetails.t)
    (registration : option string) : VehicleDetails.t :=
  {| VehicleDetails.companyVehicle := vehicle.(VehicleDetails.companyVehicle);
     VehicleDetails.registration := registration;
     VehicleDetails.makeModel := vehicle.(VehicleDetails.makeModel);
     VehicleDetails.driverName := vehicle.(VehicleDetails.driverName);
     VehicleDetails.driverLicenceNumber := vehicle.(VehicleDetails.driverLicenceNumber);
     VehicleDetails.policeNotified := vehicle.(VehicleDetails.policeNotified);
     VehicleDetails.policeReferenceNumber := vehicle.(VehicleDetails.policeReferenceNumber);
     VehicleDetails.roadConditions := vehicle.(VehicleDetails.roadConditions);
     VehicleDetails.weatherConditions := vehicle.(VehicleDetails.weatherConditions);
     VehicleDetails.approximateSpeedKmh := vehicle.(VehicleDetails.approximateSpeedKmh) |}.

(** [{ ...incident, vehicleDetails }] *)
Definition IncidentReport_withVehicleDetails (incident : IncidentReport.t)
    (vehicle : option VehicleDetails.t) : IncidentReport.t :=
  {| referenceCode := incident.(referenceCode);
     category := incident.(category);
     dateOfIncident := incident.(dateOfIncident);
     timeOfIncident := incident.(timeOfIncident);
     location := incident.(location);
     reportedBy := incident.(reportedBy);
     witnesses := incident.(witnesses);
     personInvolved := incident.(personInvolved);
     injuryDetails := incident.(injuryDetails);
     propertyDamageDetails := incident.(propertyDamageDetails);
     vehicleDetails := vehicle;
     publicLiabilityDetails := incident.(publicLiabilityDetails);
     incidentDescription := incident.(incidentDescription);
     rootCauseAnalysis := incident.(rootCauseAnalysis);
     correctiveActions := incident.(correctiveActions);
     attachments := incident.(attachments);
     signatures := incident.(signatures);
     riddorAssessment := incident.(riddorAssessment) |}.

(** The findings the claims speak of *)
Definition policeReferenceFinding : ValidationError.t :=
  err "vehicleDetails.policeReferenceNumber"
      "Police reference number is strongly recommended when police are notified"
      "Vehicle Details".

Definition riddorReminder : ValidationError.t :=
  err "riddorAssessment"
      "Serious injury may be RIDDOR reportable - ensure HSE notification is considered"
      "Legal Compliance".

Definition ukRegistrationFormatError : ValidationError.t :=
  err "vehicleDetails.registration" "Please enter a valid UK vehicle registration"
      "Vehicle Details".

Definition noCorrectiveActionsError : ValidationError.t :=
  err "correctiveActions"
      "At least one corrective action is required for investigation report"
      "Corrective Actions".

(** The registration rule of [validateVehicleIncident], and its other four
    rules *)
Definition registrationErrors (registration : option string) : list ValidationError.t :=
  if Js.blank registration
  then [err "vehicleDetails.registration" "Vehicle registration is required"
            "Vehicle Details"]
  else if negb (Regex.test ukRegRegex (Js.stripWhiteSpace (default "" registration)))
  then [ukRegistrationFormatError]
  else [].

Definition otherVehicleErrors (vehicle : option VehicleDetails.t) : list ValidationError.t :=
  (if Js.blank (vehicle ≫= VehicleDetails.driverName)
   then [err "vehicleDetails.driverName" "Driver name is required" "Vehicle Details"]
   else []) ++
  (if negb (Js.defined (vehicle ≫= VehicleDetails.companyVehicle))
   then [err "vehicleDetails.companyVehicle" "Please indicate if this is a company vehicle"
             "Vehicle Details"]
   else []) ++
  (if negb (Js.defined (vehicle ≫= VehicleDetails.policeNotified))
   then [err "vehicleDetails.policeNotified" "Please indicate if police were notified"
             "Vehicle Details"]
   else []) ++
  (if default false (vehicle ≫= VehicleDetails.policeNotified)
      && Js.blank (vehicle ≫= VehicleDetails.policeReferenceNumber)
   then [policeReferenceFinding]
   else []).

(** The fields that the TypeScript interfaces declare without [?] and that
    the model keeps as options are present: in the record itself and in every
    sub-record that is there.  A record that satisfies this is an
    [IncidentReport] in the sense of the type declarations; its optional
    fields and sub-records are unconstrained. *)
Definition declaredFieldsPresent (incident : IncidentReport.t) : bool :=
  Js.defined incident.(category)
  && Js.defined incident.(dateOfIncident)
  && Js.defined incident.(timeOfIncident)
  && match incident.(reportedBy) with
     | Some reporter => Js.defined reporter.(ReportingPerson.name)
     | None => false
     end
  && match incident.(incidentDescription) with
     | Some description => Js.defined description.(IncidentDescription.whatHappened)
     | None => false
     end
  && match incident.(personInvolved) with
     | Some person =>
         Js.defined person.(PersonInvolved.fullName)
         && Js.defined person.(PersonInvolved.roleOrRelationship)
     | None => true
     end
  && match incident.(injuryDetails) with
     | Some injury =>
         Js.defined injury.(InjuryDetails.natureOfInjury)
         && Js.defined injury.(InjuryDetails.bodyPartsAffected)
         && Js.defined injury.(InjuryDetails.severity)
     | None => true
     end
  && match incident.(propertyDamageDetails) with
     | Some damage =>
         Js.defined damage.(PropertyDamageDetails.assetType)
         && Js.defined damage.(PropertyDamageDetails.assetDescription)
         && Js.defined damage.(PropertyDamageDetails.extentOfDamage)
         && Js.defined damage.(PropertyDamageDetails.urgentRepairRequired)
     | None => true
     end
  && match incident.(vehicleDetails) with
     | Some vehicle =>
         Js.defined vehicle.(VehicleDetails.companyVehicle)
         && Js.defined vehicle.(VehicleDetails.registration)
         && Js.defined vehicle.(VehicleDetails.driverName)
         && Js.defined vehicle.(VehicleDetails.policeNotified)
     | None => true
     end
  && match incident.(publicLiabilityDetails) with
     | Some liability => Js.defined liability.(PublicLiabilityDetails.reasonForBeingOnSite)
     | None => true
     end
  && match incident.(rootCauseAnalysis) with
     | Some rca => Js.defined rca.(RootCauseAnalysis.wereControlsAdequate)
     | None => true
     end
  && match incident.(correctiveActions) with
     | Some actions =>
         forallb (λ action, Js.defined action.(CorrectiveAction.description)) actions
     | None => true
     end.


(** An injury whose severity was never chosen: the validator reports it *)
Definition draftInjuryIncident : IncidentReport.t :=
  IncidentReport.mk "INC-20261101-0005" (Some personal_injury)
    (Some "2026-11-01") (Some "14:30") sampleLocation (Some sampleReporter)
    None (Some samplePerson) (Some (sampleInjury None))
    None None None (Some sampleDescription) None None None None None.

(** An investigated incident whose third corrective action has no
    description and whose second has nobody responsible *)
Definition sampleActions : list CorrectiveAction.t :=
  [ CorrectiveAction.mk (Some "Replace the floor mat") (Some "Site manager") None open;
    CorrectiveAction.mk (Some "Add wet-floor signage") None (Some "2027-01-01") in_progress;
    CorrectiveAction.mk None (Some "Safety officer") None open ].

Definition sampleInvestigatedIncident : IncidentReport.t :=
  IncidentReport.mk "INC-20261101-0006" (Some personal_injury)
    (Some "2026-11-01") (Some "14:30") sampleLocation (Some sampleReporter)
    None (Some samplePerson) (Some (sampleInjury (Some minor)))
    None None None (Some sampleDescription)
    (Some (RootCauseAnalysis.mk (Some "Leak from the roof") None (Some "No inspection regime")
             None None (Some no) None))
    (Some sampleActions) (Some []) None None.




(** The records on which the mapper reads no property of [undefined]: the
    date, the time, the reporter and the description are there, and the
    injury details of a personal injury, when there, have their body parts
    and their severity. *)
Definition mapperDomain (incident : IncidentReport.t) : bool :=
  Js.defined incident.(dateOfIncident)
  && Js.defined incident.(timeOfIncident)
  && Js.defined incident.(reportedBy)
  && Js.defined incident.(incidentDescription)
  && match incident.(category), incident.(injuryDetails) with
     | Some personal_injury, Some injury =>
         Js.defined injury.(InjuryDetails.bodyPartsAffected)
         && Js.defined injury.(InjuryDetails.severity)
     | _, _ => true
     end.

(** Case analysis on the guard of a conditional step *)
Ltac split_guard H :=
  match goal with
  | |- ∃ _, (if ?c then _ else _) = _ => destruct c eqn:H; [|eauto]
  end.



(** [appends r m f a]: the computation [m], run in a store whose array at
    [r] holds [l], returns [a] and leaves that array holding [f now l], where
    [now] is the reading of the clock; the clock and every other array are
    as they were. *)
Definition appends {A : Type} (r : Store.ref) (m : Store.M A)
    (f : Z → list ValidationError.t → list ValidationError.t) (a : A) : Prop :=
  ∀ now front l back,
    length front = r →
    Store.run m (Store.mkWorld now (front ++ l :: back))
    = (a, Store.mkWorld now (front ++ f now l :: back)).

(** What [checkCorrectiveAction] and [checkWitness] push *)
Definition correctiveActionErrors (action : CorrectiveAction.t) (index : nat)
  : list ValidationError.t := checkCorrectiveAction action index [].

Definition witnessWarnings (witness : Witness.t) (index : nat) : list ValidationError.t :=
  checkWitness witness index [].

Local Open Scope Q_scope.

(** *** The run of [buildPdfDocument], state by state *)

(** A whole number of points *)
Definition isInteger (q : Q) : bool := (Qnum q mod Z.pos (Qden q) =? 0)%Z.







Local Close Scope Q_scope.

(** *** A sample run of the renderer *)


(** An investigated personal injury that passes the export validation of the
    full report: root causes and five corrective actions, each with a
    description and somebody responsible *)
Definition sampleExportActions : list CorrectiveAction.t :=
  [ CorrectiveAction.mk (Some "Replace the floor mat") (Some "Site manager") None open;
    CorrectiveAction.mk (Some "Add wet-floor signage") (Some "Shift lead")
      (Some "2026-11-01") in_progress;
    CorrectiveAction.mk (Some "Repair the roof") (Some "Facilities") None open;
    CorrectiveAction.mk (Some "Inspect the loading bay weekly") (Some "Safety officer")
      None open;
    CorrectiveAction.mk (Some "Brief all staff") (Some "Site manager") None closed ].

Definition sampleExportIncident : IncidentReport.t :=
  IncidentReport.mk "INC-20261101-0007" (Some personal_injury)
    (Some "2026-11-01") (Some "14:30") sampleLocation (Some sampleReporter)
    None (Some samplePerson) (Some (sampleInjury (Some minor)))
    None None None (Some sampleDescription)
    (Some (RootCauseAnalysis.mk (Some "Leak from the roof") None (Some "No inspection regime")
             None None (Some no) None))
    (Some sampleExportActions) (Some [sampleAttachment]) None None.

(** The model of that incident, full report *)
Definition sampleModel : PdfIncidentModel.t :=
  match mapIncidentToPdfModel sample_Date_parse sample_Date_local sample_number_toString
          sample_number_toFixed sample_now sampleExportIncident fullReportOptions with
  | Normal model => model
  | TypeError => PdfIncidentModel.mk "" "" None "" [] [] None None None None
  end.



(** * Properties *)

(** *** Sample runs of the patterns *)

Example timeRegex_1430 : Regex.test timeRegex "14:30" = true.
Proof. reflexivity. Qed.

Example timeRegex_2430 : Regex.test timeRegex "24:30" = false.
Proof. reflexivity. Qed.

Example timeRegex_930 : Regex.test timeRegex "9:30" = true.
Proof. reflexivity. Qed.

Example ukRegRegex_current : Regex.test ukRegRegex (Js.stripWhiteSpace "ab12 cde") = true.
Proof. reflexivity. Qed.

Example ukRegRegex_prefix : Regex.test ukRegRegex "A123BCD" = true.
Proof. reflexivity. Qed.

Example ukRegRegex_INVALID : Regex.test ukRegRegex (Js.stripWhiteSpace "INVALID") = false.
Proof. reflexivity. Qed.

Example isValidEmail_ok : isValidEmail "a.b@example.co.uk" = true.
Proof. reflexivity. Qed.

Example isValidEmail_no_dot : isValidEmail "a@b" = false.
Proof. reflexivity. Qed.

Example isValidUKPhone_ok : isValidUKPhone "+44 20 7946 0958" = true.
Proof. reflexivity. Qed.

Example isValidUKPhone_short : isValidUKPhone "01234" = false.
Proof. reflexivity. Qed.

Example trim_sample : Js.trim "  a b  " = "a b".
Proof. reflexivity. Qed.

(** ** Facts about the JavaScript helpers *)

Lemma blank_None : Js.blank None = true.
Proof. reflexivity. Qed.

Lemma blank_false_truthy (o : option string) : Js.blank o = false → Js.truthy o = true.
Proof. unfold Js.blank. destruct (Js.truthy o); [done | cbn; done]. Qed.

Lemma blank_false_Some (o : option string) :
  Js.blank o = false → ∃ s, o = Some s ∧ s ≠ "" ∧ Js.trim s ≠ "".
Proof.
  destruct o as [s|]; [|done]. unfold Js.blank, Js.truthy, Js.eqs. cbn.
  repeat case_bool_decide; cbn; try done. intros _. eauto.
Qed.


Lemma orElse_empty (d : string) : Js.orElse (Some "") d = d.
Proof. reflexivity. Qed.

Lemma push_not_nil {A : Type} (xs : list A) (x : A) : xs ++ [x] ≠ [].
Proof. destruct xs; done. Qed.

(** A [forEach] whose body only pushes keeps what was there and appends, in
    index order, what the body pushes for each element. *)
Lemma forEachFrom_pushes {A B : Type} (body : A → nat → list B → list B)
    (pushed : A → nat → list B) :
  (∀ x i acc, body x i acc = acc ++ pushed x i) →
  ∀ xs index acc,
    Js.forEachFrom body xs index acc = acc ++ pushedFrom pushed xs index.
Proof.
  intros Hbody. induction xs as [|x xs IH]; intros index acc; cbn.
  - by rewrite app_nil_r.
  - by rewrite IH, Hbody, <- app_assoc.
Qed.

Lemma elem_of_pushedFrom {A B : Type} (pushed : A → nat → list B) (xs : list A)
    (index : nat) (e : B) :
  e ∈ pushedFrom pushed xs index ↔ ∃ i x, xs !! i = Some x ∧ e ∈ pushed x (index + i).
Proof.
  revert index. induction xs as [|y ys IH]; intros index; cbn.
  - split; [by intros ?%elem_of_nil | by intros (i & x & ? & _)].
  - rewrite elem_of_app, IH. split.
    + intros [He | (i & x & Hi & He)].
      * exists 0, y. by rewrite Nat.add_0_r.
      * exists (S i), x. split; [done|]. by replace (index + S i) with (S index + i) by lia.
    + intros ([|i] & x & Hi & He); cbn in Hi.
      * left. simplify_eq. by rewrite Nat.add_0_r in He.
      * right. exists i, x. split; [done|].
        by replace (S index + i) with (index + S i) by lia.
Qed.

Lemma checkCorrectiveAction_pushes action index acc :
  checkCorrectiveAction action index acc = acc ++ correctiveActionErrors action index.
Proof.
  unfold correctiveActionErrors, checkCorrectiveAction.
  repeat case_match; cbn; rewrite <- ?app_assoc, ?app_nil_r; done.
Qed.

Lemma checkWitness_pushes witness index acc :
  checkWitness witness index acc = acc ++ witnessWarnings witness index.
Proof.
  unfold witnessWarnings, checkWitness. case_match; cbn; by rewrite ?app_nil_r.
Qed.

(** ** Properties of the validation engine *)

Section ValidatorProperties.

Variable Date_parse : string → option Z.
Variable endOfLocalDay : Z → Z.

Local Abbreviation validate := (validateIncident Date_parse endOfLocalDay).
Local Abbreviation validateForExport := (validateIncidentForPDF Date_parse endOfLocalDay).
Local Abbreviation basicInfo := (validateBasicInfo Date_parse endOfLocalDay).

(** The category-specific rules, as selected by the [switch] *)
Lemma validate_errors now incident :
  ValidationResult.errors (validate now incident) =
    basicInfo now incident ++
    match incident.(category) with
    | Some personal_injury => validatePersonalInjury incident
    | Some public_liability => validatePublicLiability incident
    | Some property_damage => validatePropertyDamage incident
    | Some vehicle_incident => validateVehicleIncident incident
    | None => []
    end.
Proof.
  unfold validateIncident; cbn. destruct (category incident) as [[]|]; by rewrite ?app_nil_r.
Qed.

Lemma validate_valid now incident :
  ValidationResult.valid (validate now incident) = true ↔
  ValidationResult.errors (validate now incident) = [].
Proof.
  unfold validateIncident; cbn. rewrite Nat.eqb_eq. apply length_zero_iff_nil.
Qed.

Lemma validate_warnings now incident :
  ValidationResult.warnings (validate now incident) = Some (generateWarnings incident).
Proof. reflexivity. Qed.

(** The warnings, as one list in the order in which they are pushed *)
Lemma generateWarnings_parts incident :
  let email := incident.(reportedBy) ≫= ReportingPerson.email in
  let contactNumber := incident.(reportedBy) ≫= ReportingPerson.contactNumber in
  let severity := incident.(injuryDetails) ≫= InjuryDetails.severity in
  generateWarnings incident =
    (if Js.truthy email && negb (isValidEmail (default "" email))
     then [err "reportedBy.email" "Email format appears invalid" "Basic Information"]
     else []) ++
    (if Js.truthy contactNumber && negb (isValidUKPhone (default "" contactNumber))
     then [err "reportedBy.contactNumber" "Phone number format appears invalid"
               "Basic Information"]
     else []) ++
    pushedFrom witnessWarnings (default [] incident.(witnesses)) 0 ++
    (if bool_decide (default [] incident.(attachments) = [])
     then [err "attachments" "Consider adding photos or other evidence" "Attachments"]
     else []) ++
    (if ((bool_decide (incident.(category) = Some personal_injury)
          && bool_decide (severity = Some severe))
         || bool_decide (severity = Some fatal))
        && negb (Js.defined incident.(riddorAssessment))
     then [riddorReminder]
     else []).
Proof.
  intros email contactNumber severity. unfold generateWarnings.
  fold email contactNumber severity.
  destruct (Js.truthy email && negb (isValidEmail (default "" email)));
    destruct (Js.truthy contactNumber && negb (isValidUKPhone (default "" contactNumber)));
    destruct (witnesses incident) as [[|w ws]|];
    destruct (attachments incident) as [[|a ats]|];
    destruct ((bool_decide (category incident = Some personal_injury)
               && bool_decide (severity = Some severe))
              || bool_decide (severity = Some fatal));
    destruct (riddorAssessment incident);
    unfold Js.forEach;
    rewrite ?(forEachFrom_pushes _ _ checkWitness_pushes);
    cbn; rewrite <- ?app_assoc, ?app_nil_r; done.
Qed.

(** Every warning is about the reporter's email or phone, a witness
    statement, the attachments or the RIDDOR assessment. *)
Lemma generateWarnings_fields incident w :
  w ∈ generateWarnings incident →
  w.(ValidationError.field) ∈
    ["reportedBy.email"; "reportedBy.contactNumber"; "attachments"; "riddorAssessment"]
  ∨ ∃ i : nat, w.(ValidationError.field) = ("witnesses[" ++ pretty i ++ "].statement")%string.
Proof.
  rewrite generateWarnings_parts. cbn zeta. rewrite !elem_of_app.
  intros [H | [H | [H | [H | H]]]].
  - left. case_match; [|by apply elem_of_nil in H].
    apply list_elem_of_singleton in H as ->. cbn. apply list_elem_of_here.
  - left. case_match; [|by apply elem_of_nil in H].
    apply list_elem_of_singleton in H as ->. cbn. do 1 apply list_elem_of_further.
    apply list_elem_of_here.
  - right. apply elem_of_pushedFrom in H as (i & x & _ & H).
    unfold witnessWarnings, checkWitness in H. case_match; [|by apply elem_of_nil in H].
    cbn in H. apply list_elem_of_singleton in H as ->. by exists i.
  - left. case_match; [|by apply elem_of_nil in H].
    apply list_elem_of_singleton in H as ->. cbn. do 2 apply list_elem_of_further.
    apply list_elem_of_here.
  - left. case_match; [|by apply elem_of_nil in H].
    apply list_elem_of_singleton in H as ->. cbn. do 3 apply list_elem_of_further.
    apply list_elem_of_here.
Qed.

(** The RIDDOR reminder is among the warnings exactly when the test of the
    source holds: a severe personal injury, or a fatality of any category,
    with no assessment on file. *)
Lemma riddorReminder_iff incident :
  let severity := incident.(injuryDetails) ≫= InjuryDetails.severity in
  riddorReminder ∈ generateWarnings incident ↔
    ((incident.(category) = Some personal_injury ∧ severity = Some severe)
     ∨ severity = Some fatal)
    ∧ incident.(riddorAssessment) = None.
Proof.
  intros severity. rewrite generateWarnings_parts. cbn zeta. fold severity.
  rewrite !elem_of_app. split.
  - intros [H | [H | [H | [H | H]]]].
    + case_match; [|by apply elem_of_nil in H]. by apply list_elem_of_singleton in H.
    + case_match; [|by apply elem_of_nil in H]. by apply list_elem_of_singleton in H.
    + apply elem_of_pushedFrom in H as (i & x & _ & H).
      unfold witnessWarnings, checkWitness in H. case_match; [|by apply elem_of_nil in H].
      cbn in H. by apply list_elem_of_singleton in H.
    + case_match; [|by apply elem_of_nil in H]. by apply list_elem_of_singleton in H.
    + case_match eqn:Hc; [|by apply elem_of_nil in H].
      apply andb_true_iff in Hc as [Hc Hr]. split.
      * apply orb_true_iff in Hc as [Hc | Hc].
        -- left. apply andb_true_iff in Hc as [?%bool_decide_eq_true ?%bool_decide_eq_true].
           done.
        -- right. by apply bool_decide_eq_true in Hc.
      * by destruct (riddorAssessment incident).
  - intros [Hc Hr]. do 4 right. rewrite Hr. cbn.
    destruct Hc as [[-> ->] | ->]; cbn.
    + apply list_elem_of_here.
    + rewrite orb_true_r. apply list_elem_of_here.
Qed.

(** C10.  For every record and every export profile the warnings returned by
    [validateIncidentForPDF] are exactly the warnings returned by
    [validateIncident] on the same record (whatever the clock reads at either
    call): the export-only rules, the signature rules and the photo rule add
    blocking errors only.  Both are the list built by [generateWarnings]. *)
Theorem validateIncidentForPDF_warnings now now' incident options :
  ValidationResult.warnings
    (validateIncidentForPDF Date_parse endOfLocalDay now incident options)
  = ValidationResult.warnings (validateIncident Date_parse endOfLocalDay now' incident)
  ∧ ValidationResult.warnings
      (validateIncidentForPDF Date_parse endOfLocalDay now incident options)
    = Some (generateWarnings incident).
Proof. split; reflexivity. Qed.

(** The police-reference finding is raised as a blocking error: whenever the
    police were notified and the reference number is absent or blank, the
    finding is in [errors], the record is invalid, and the finding is not
    among the warnings. *)
Lemma policeReference_is_blocking now incident vehicle :
  incident.(category) = Some vehicle_incident →
  incident.(vehicleDetails) = Some vehicle →
  vehicle.(VehicleDetails.policeNotified) = Some true →
  Js.blank vehicle.(VehicleDetails.policeReferenceNumber) = true →
  policeReferenceFinding ∈ ValidationResult.errors (validate now incident)
  ∧ ValidationResult.valid (validate now incident) = false
  ∧ policeReferenceFinding ∉ generateWarnings incident.
Proof.
  intros Hcat Hveh Hpolice Hblank.
  assert (Hin : policeReferenceFinding ∈ ValidationResult.errors (validate now incident)).
  { rewrite validate_errors, Hcat. apply elem_of_app. right.
    unfold validateVehicleIncident. rewrite Hveh. cbn. rewrite Hpolice, Hblank. cbn.
    apply elem_of_app. right. apply list_elem_of_here. }
  split; [done|]. split.
  - destruct (ValidationResult.valid (validate now incident)) eqn:Hvalid; [|done].
    apply validate_valid in Hvalid. rewrite Hvalid in Hin. by apply elem_of_nil in Hin.
  - intros [Hf | [i Hf]]%generateWarnings_fields.
    + cbn in Hf. rewrite !elem_of_cons, elem_of_nil in Hf.
      by destruct Hf as [?|[?|[?|[?|[]]]]].
    + done.
Qed.

(** C5.  The round-trip scenario: a personal-injury record dated today (a
    date that parses to an instant not after the end of the local day), with
    the time "14:30", a manual address, a reporter name, a description of at
    least 20 characters, the injured person's name, and injury details with
    the nature of the injury, severity minor, at least one body part and a
    PPE object, is accepted: [valid] is true and there are no errors.  A
    name or text counts as set when it is not blank. *)
Theorem round_trip_personal_injury now incident date t reporter description text
    person injury bodyPart bodyParts ppe :
  incident.(category) = Some personal_injury →
  incident.(dateOfIncident) = Some date → date ≠ "" →
  Date_parse date = Some t → (t ≤ endOfLocalDay now)%Z →
  incident.(timeOfIncident) = Some "14:30" →
  Js.truthy incident.(location).(IncidentLocation.manualAddress) = true →
  incident.(reportedBy) = Some reporter →
  Js.blank reporter.(ReportingPerson.name) = false →
  incident.(incidentDescription) = Some description →
  description.(IncidentDescription.whatHappened) = Some text →
  Js.blank (Some text) = false → (20 ≤ String.length text)%nat →
  incident.(personInvolved) = Some person →
  Js.blank person.(PersonInvolved.fullName) = false →
  incident.(injuryDetails) = Some injury →
  Js.blank injury.(InjuryDetails.natureOfInjury) = false →
  injury.(InjuryDetails.severity) = Some minor →
  injury.(InjuryDetails.bodyPartsAffected) = Some (bodyPart :: bodyParts) →
  injury.(InjuryDetails.ppeUsed) = Some ppe →
  ValidationResult.valid (validate now incident) = true
  ∧ ValidationResult.errors (validate now incident) = [].
Proof.
  intros Hcat Hdate Hne Hparse Htoday Htime Haddr Hrep Hname Hdesc Hwhat Htext Hlen
    Hperson Hfull Hinj Hnature Hsev Hparts Hppe.
  assert (Herr : ValidationResult.errors (validate now incident) = []).
  { rewrite validate_errors, Hcat.
    unfold validateBasicInfo, validatePersonalInjury.
    rewrite Hcat, Hdate, Hparse, Htime, Hrep, Hdesc, Hperson, Hinj.
    cbn -[Regex.test Nat.ltb Z.ltb String.length].
    rewrite Hwhat, Htext, Hname, Hfull, Hnature, Hsev, Hparts, Hppe, Haddr, timeRegex_1430.
    cbn -[Nat.ltb Z.ltb String.length].
    rewrite andb_false_r.
    destruct date as [|c date']; [done|].
    replace (Z.ltb (endOfLocalDay now) t) with false by (symmetry; apply Z.ltb_ge; lia).
    replace (Nat.ltb (String.length text) 20) with false
      by (symmetry; apply Nat.ltb_ge; lia).
    done. }
  split; [|done]. by apply validate_valid.
Qed.

(** The errors of an export validation, in the order in which they are
    pushed *)
Lemma validateForExport_errors now incident options :
  ValidationResult.errors (validateForExport now incident options) =
    ValidationResult.errors (validate now incident) ++
    (if negb options.(PdfExportOptions.summaryOnly)
     then validateInvestigationFields incident else []) ++
    (if options.(PdfExportOptions.includeSignatures)
        && negb (Js.defined (incident.(signatures) ≫= Signatures.reporter))
     then [err "signatures.reporter" "Reporter signature is required for PDF export"
               "Signatures"]
     else []) ++
    (if options.(PdfExportOptions.includeSignatures)
        && (negb options.(PdfExportOptions.summaryOnly)
            && negb (Js.defined (incident.(signatures) ≫= Signatures.investigator)))
     then [err "signatures.investigator"
               "Investigator signature is required for full investigation PDF" "Signatures"]
     else []) ++
    (if options.(PdfExportOptions.includePhotos)
        && match incident.(attachments) with
           | None => true
           | Some attachments =>
               Nat.eqb (length (filter (λ a, a.(Attachment.type) = photo) attachments)) 0
           end
     then [err "attachments" "No photos available to include in PDF" "Attachments"]
     else []).
Proof.
  unfold validateIncidentForPDF. cbn [ValidationResult.errors app].
  destruct (PdfExportOptions.summaryOnly options),
    (PdfExportOptions.includeSignatures options),
    (Js.defined (signatures incident ≫= Signatures.reporter)),
    (Js.defined (signatures incident ≫= Signatures.investigator)),
    (PdfExportOptions.includePhotos options);
    cbn [negb andb]; repeat case_match; rewrite <- ?app_assoc, ?app_nil_r; done.
Qed.

Lemma validateForExport_valid now incident options :
  ValidationResult.valid (validateForExport now incident options) = true ↔
  ValidationResult.errors (validateForExport now incident options) = [].
Proof.
  unfold validateIncidentForPDF; cbn. rewrite Nat.eqb_eq. apply length_zero_iff_nil.
Qed.

(** The investigation findings; the last part is the corrective-action
    rule. *)
Lemma validateInvestigationFields_actions incident :
  ∃ rootCause,
    validateInvestigationFields incident =
      rootCause ++
      match incident.(correctiveActions) with
      | None | Some [] => [noCorrectiveActionsError]
      | Some actions => pushedFrom correctiveActionErrors actions 0
      end.
Proof.
  unfold validateInvestigationFields.
  set (rootCause := if negb (Js.defined _) then _ else _). exists rootCause.
  destruct (correctiveActions incident) as [[|a actions]|]; try done.
  unfold Js.forEach. by rewrite (forEachFrom_pushes _ _ checkCorrectiveAction_pushes).
Qed.

Lemma investigation_error_blocks now incident options e :
  options.(PdfExportOptions.summaryOnly) = false →
  e ∈ validateInvestigationFields incident →
  e ∈ ValidationResult.errors (validateForExport now incident options).
Proof.
  intros Hfull He. rewrite validateForExport_errors, Hfull. cbn [negb].
  rewrite !elem_of_app. auto.
Qed.

(** C6.  With [summaryOnly = false]: when the list of corrective actions is
    absent or empty, [validateIncidentForPDF] reports a blocking error whose
    field path is exactly "correctiveActions", whatever the other fields are;
    when the list has an entry at index [i] whose description (or responsible
    person) is missing or blank, it reports a blocking error whose field path
    is "correctiveActions[i].description" (or
    "correctiveActions[i].responsiblePerson"). *)
Theorem export_corrective_actions now incident options :
  options.(PdfExportOptions.summaryOnly) = false →
  let result := validateForExport now incident options in
  ((incident.(correctiveActions) = None ∨ incident.(correctiveActions) = Some []) →
     err "correctiveActions"
         "At least one corrective action is required for investigation report"
         "Corrective Actions" ∈ result.(ValidationResult.errors)
     ∧ result.(ValidationResult.valid) = false)
  ∧ (∀ actions i action,
       incident.(correctiveActions) = Some actions → actions !! i = Some action →
       (Js.blank action.(CorrectiveAction.description) = true →
          err ("correctiveActions[" ++ pretty i ++ "].description")
              ("Corrective action " ++ pretty (i + 1) ++ ": Description is required")
              "Corrective Actions" ∈ result.(ValidationResult.errors))
       ∧ (Js.blank action.(CorrectiveAction.responsiblePerson) = true →
          err ("correctiveActions[" ++ pretty i ++ "].responsiblePerson")
              ("Corrective action " ++ pretty (i + 1) ++ ": Responsible person is required")
              "Corrective Actions" ∈ result.(ValidationResult.errors))).
Proof.
  intros Hfull result. subst result.
  destruct (validateInvestigationFields_actions incident) as [rootCause Hinv].
  split.
  - intros Hnone.
    assert (Hin : noCorrectiveActionsError
                  ∈ ValidationResult.errors (validateForExport now incident options)).
    { apply investigation_error_blocks; [done|]. rewrite Hinv. apply elem_of_app. right.
      destruct Hnone as [-> | ->]; apply list_elem_of_here. }
    split; [done|].
    destruct (ValidationResult.valid _) eqn:Hvalid; [|done].
    apply validateForExport_valid in Hvalid. rewrite Hvalid in Hin.
    by apply elem_of_nil in Hin.
  - intros actions i action Hactions Hi.
    assert (Hpushed : ∀ e, e ∈ correctiveActionErrors action i →
              e ∈ ValidationResult.errors (validateForExport now incident options)).
    { intros e He. apply investigation_error_blocks; [done|]. rewrite Hinv, Hactions.
      apply elem_of_app. right.
      destruct actions as [|a0 rest]; [done|].
      apply elem_of_pushedFrom. by exists i, action. }
    split; intros Hblank; apply Hpushed;
      unfold correctiveActionErrors, checkCorrectiveAction; rewrite Hblank.
    + destruct (Js.blank (CorrectiveAction.responsiblePerson action)); cbn;
        apply list_elem_of_here.
    + destruct (Js.blank (CorrectiveAction.description action)); cbn;
        [apply list_elem_of_further|]; apply list_elem_of_here.
Qed.

(** The vehicle rules, as one list in the order in which they are pushed *)
Lemma validateVehicleIncident_parts incident :
  validateVehicleIncident incident =
    registrationErrors (incident.(vehicleDetails) ≫= VehicleDetails.registration)
    ++ otherVehicleErrors incident.(vehicleDetails).
Proof.
  unfold validateVehicleIncident, registrationErrors, otherVehicleErrors.
  destruct (Js.blank (vehicleDetails incident ≫= VehicleDetails.registration)),
    (negb (Regex.test ukRegRegex
             (Js.stripWhiteSpace
                (default "" (vehicleDetails incident ≫= VehicleDetails.registration))))),
    (Js.blank (vehicleDetails incident ≫= VehicleDetails.driverName)),
    (negb (Js.defined (vehicleDetails incident ≫= VehicleDetails.companyVehicle))),
    (negb (Js.defined (vehicleDetails incident ≫= VehicleDetails.policeNotified))),
    (default false (vehicleDetails incident ≫= VehicleDetails.policeNotified)
     && Js.blank (vehicleDetails incident ≫= VehicleDetails.policeReferenceNumber));
    reflexivity.
Qed.

(** The basic rules do not read the vehicle details. *)
Lemma validateBasicInfo_withVehicleDetails now incident vehicle :
  basicInfo now (IncidentReport_withVehicleDetails incident vehicle) = basicInfo now incident.
Proof. reflexivity. Qed.

(** C7.  Take a vehicle-incident record that passes every rule, and put
    "INVALID" in its registration: validation then reports exactly one
    blocking error, on the field "vehicleDetails.registration", with the
    UK-format message and not the missing-registration message. *)
Theorem invalid_registration_single_error now incident vehicle :
  incident.(category) = Some vehicle_incident →
  incident.(vehicleDetails) = Some vehicle →
  ValidationResult.errors (validate now incident) = [] →
  ValidationResult.errors
    (validate now
       (IncidentReport_withVehicleDetails incident
          (Some (VehicleDetails_withRegistration vehicle (Some "INVALID")))))
  = [ err "vehicleDetails.registration" "Please enter a valid UK vehicle registration"
          "Vehicle Details" ].
Proof.
  intros Hcat Hveh Hok.
  rewrite validate_errors, Hcat, validateVehicleIncident_parts, Hveh in Hok.
  apply app_eq_nil in Hok as [Hbasic [_ Hothers]%app_eq_nil].
  rewrite validate_errors, validateBasicInfo_withVehicleDetails, Hbasic.
  cbn [IncidentReport_withVehicleDetails category app]. rewrite Hcat.
  rewrite validateVehicleIncident_parts.
  cbn [IncidentReport_withVehicleDetails vehicleDetails].
  change (otherVehicleErrors (Some (VehicleDetails_withRegistration vehicle _)))
    with (otherVehicleErrors (Some vehicle)).
  rewrite Hothers. reflexivity.
Qed.

End ValidatorProperties.

(** ** The validation engine on the sample records *)

(** C1.  A vehicle incident that passes every other rule, with the police
    notified and no reference number: the finding is the one element of
    [errors], [valid] is false and the warnings are empty.  The source raises
    the "strongly recommended" finding as a blocking error. *)
Theorem police_reference_reported_as_error :
  let incident := sampleVehicleIncident (sampleVehicle (Some "AB12 CDE") (Some true) None) in
  let result := validateIncident sample_Date_parse sample_endOfLocalDay sample_now incident in
  declaredFieldsPresent incident = true
  ∧ result.(ValidationResult.errors) = [policeReferenceFinding]
  ∧ result.(ValidationResult.valid) = false
  ∧ result.(ValidationResult.warnings) = Some [].
Proof. vm_compute. done. Qed.

(** C4.  A member of the public with a severe injury and no RIDDOR assessment
    on file: no compliance reminder is issued, because the category is not
    personal_injury; the same record with severity fatal gets the
    reminder. *)
Theorem severe_public_liability_no_reminder :
  declaredFieldsPresent sampleLiabilityIncident = true
  ∧ sampleLiabilityIncident.(category) = Some public_liability
  ∧ (sampleLiabilityIncident.(injuryDetails) ≫= InjuryDetails.severity) = Some severe
  ∧ sampleLiabilityIncident.(riddorAssessment) = None
  ∧ (validateIncident sample_Date_parse sample_endOfLocalDay sample_now
       sampleLiabilityIncident).(ValidationResult.warnings) = Some []
  ∧ (riddorReminder ∉ generateWarnings sampleLiabilityIncident)
  ∧ (riddorReminder ∈ generateWarnings (sampleLiabilityIncidentOf fatal)).
Proof.
  repeat split; try reflexivity.
  - rewrite riddorReminder_iff. cbn. intros [[[? _] | ?] _]; discriminate.
  - apply riddorReminder_iff. cbn. auto.
Qed.

Lemma round_trip_personal_injury_witness :
  let result :=
    validateIncident sample_Date_parse sample_endOfLocalDay sample_now sampleInjuryIncident in
  result.(ValidationResult.valid) = true ∧ result.(ValidationResult.errors) = [].
Proof.
  apply (round_trip_personal_injury sample_Date_parse sample_endOfLocalDay sample_now
           sampleInjuryIncident "2026-11-01" 1793491200000%Z sampleReporter
           sampleDescription "Slipped on a wet floor by the loading bay"
           samplePerson (sampleInjury (Some minor)) "ankle" [] (PPEUsage.mk true None None));
    try reflexivity.
  all: vm_compute; first [discriminate | lia].
Defined.

Lemma export_corrective_actions_witness :
  PdfExportOptions.summaryOnly fullReportOptions = false
  ∧ err "correctiveActions"
        "At least one corrective action is required for investigation report"
        "Corrective Actions"
      ∈ (validateIncidentForPDF sample_Date_parse sample_endOfLocalDay sample_now
           sampleInjuryIncident fullReportOptions).(ValidationResult.errors)
  ∧ err "correctiveActions[2].description"
        "Corrective action 3: Description is required" "Corrective Actions"
      ∈ (validateIncidentForPDF sample_Date_parse sample_endOfLocalDay sample_now
           sampleInvestigatedIncident fullReportOptions).(ValidationResult.errors)
  ∧ err "correctiveActions[1].responsiblePerson"
        "Corrective action 2: Responsible person is required" "Corrective Actions"
      ∈ (validateIncidentForPDF sample_Date_parse sample_endOfLocalDay sample_now
           sampleInvestigatedIncident fullReportOptions).(ValidationResult.errors).
Proof.
  split; [reflexivity|]. split; [|split].
  - apply (export_corrective_actions sample_Date_parse sample_endOfLocalDay sample_now
             sampleInjuryIncident fullReportOptions eq_refl).
    left. reflexivity.
  - apply (export_corrective_actions sample_Date_parse sample_endOfLocalDay sample_now
             sampleInvestigatedIncident fullReportOptions eq_refl)
      with (actions := sampleActions) (i := 2)
           (action := CorrectiveAction.mk None (Some "Safety officer") None open);
      reflexivity.
  - apply (export_corrective_actions sample_Date_parse sample_endOfLocalDay sample_now
             sampleInvestigatedIncident fullReportOptions eq_refl)
      with (actions := sampleActions) (i := 1)
           (action := CorrectiveAction.mk (Some "Add wet-floor signage") None
                        (Some "2027-01-01") in_progress);
      reflexivity.
Defined.

Lemma invalid_registration_single_error_witness :
  let vehicle := sampleVehicle (Some "AB12 CDE") (Some false) None in
  (validateIncident sample_Date_parse sample_endOfLocalDay sample_now
     (sampleVehicleIncident vehicle)).(ValidationResult.errors) = []
  ∧ (validateIncident sample_Date_parse sample_endOfLocalDay sample_now
       (IncidentReport_withVehicleDetails (sampleVehicleIncident vehicle)
          (Some (VehicleDetails_withRegistration vehicle (Some "INVALID")))))
      .(ValidationResult.errors)
    = [ukRegistrationFormatError].
Proof.
  split; [vm_compute; reflexivity|].
  apply (invalid_registration_single_error sample_Date_parse sample_endOfLocalDay sample_now
           (sampleVehicleIncident (sampleVehicle (Some "AB12 CDE") (Some false) None))
           (sampleVehicle (Some "AB12 CDE") (Some false) None)).
  - reflexivity.
  - reflexivity.
  - vm_compute. reflexivity.
Defined.

(** ** The validation engine in the store

    Every function of the store embedding allocates its array at the end of
    the store, fills it as the function on lists says, and touches no other
    array. *)

Section StoreProperties.

Variable Date_parse : string → option Z.
Variable endOfLocalDay : Z → Z.

(** Stepping through a function body *)
Lemma run_bind {A B : Type} (m : Store.M A) (k : A → Store.M B) (w : Store.world) :
  Store.run (m ≫= k) w = let '(a, w') := Store.run m w in Store.run (k a) w'.
Proof. reflexivity. Qed.

Lemma appends_ret {A : Type} (r : Store.ref) (a : A) : appends r (mret a) (λ _ l, l) a.
Proof. by intros now front l back _. Qed.

Lemma appends_push (r : Store.ref) (e : ValidationError.t) :
  appends r (Store.push r e) (λ _ l, l ++ [e]) tt.
Proof.
  intros now front l back <-. unfold Store.push. cbn.
  rewrite <- (Nat.add_0_r (length front)), alter_app_r. reflexivity.
Qed.

Lemma appends_bind {A B : Type} (r : Store.ref) (m : Store.M A) (k : A → Store.M B) f g
    (a : A) (b : B) :
  appends r m f a → appends r (k a) g b → appends r (m ≫= k) (λ now l, g now (f now l)) b.
Proof.
  intros Hm Hk now front l back Hr. rewrite run_bind, (Hm now front l back Hr).
  apply Hk, Hr.
Qed.

Lemma appends_if {A : Type} (r : Store.ref) (c : bool) (m m' : Store.M A) f f' (a : A) :
  appends r m f a → appends r m' f' a →
  appends r (if c then m else m') (λ now l, if c then f now l else f' now l) a.
Proof. by destruct c. Qed.

Lemma appends_Date_new {B : Type} (r : Store.ref) (k : Z → Store.M B) f (b : B) :
  (∀ now, appends r (k now) (f now) b) →
  appends r (Store.Date_new ≫= k) (λ now l, f now now l) b.
Proof.
  intros Hk now front l back Hr. rewrite run_bind.
  cbn [Store.run Store.Date_new Store.clock]. apply Hk, Hr.
Qed.

(** A function that allocates its array, fills it and returns it *)
Lemma run_newArray {A : Type} (k : Store.ref → Store.M A) f (a : Store.ref → A)
    (w : Store.world) :
  (∀ r, appends r (k r) f (a r)) →
  Store.run (Store.newArray ≫= k) w
  = (a (length w.(Store.arrays)),
     Store.mkWorld w.(Store.clock) (w.(Store.arrays) ++ [f w.(Store.clock) []])).
Proof.
  intros Hk. rewrite run_bind. cbn [Store.run Store.newArray]. by apply Hk.
Qed.

(** One step of a function body after the other *)
Ltac appends_steps :=
  repeat first
    [ apply appends_ret
    | apply appends_push
    | apply appends_if
    | apply appends_Date_new; intros ?
    | eapply appends_bind ].

(** The rule functions, run in a store *)
Lemma validateBasicInfo_run incident w :
  Store.run (Store.validateBasicInfo Date_parse endOfLocalDay incident) w
  = (length w.(Store.arrays),
     Store.mkWorld w.(Store.clock)
       (w.(Store.arrays)
        ++ [validateBasicInfo Date_parse endOfLocalDay w.(Store.clock) incident])).
Proof.
  unfold Store.validateBasicInfo, validateBasicInfo.
  destruct (dateOfIncident incident) as [[|c1 date]|],
    (timeOfIncident incident) as [[|c2 time]|];
    cbv beta iota zeta;
    (etrans; [eapply run_newArray; intros r; appends_steps | reflexivity]).
Qed.

Lemma appends_forEachFrom {A : Type} (r : Store.ref) (body : A → nat → Store.M unit)
    (pushed : A → nat → list ValidationError.t → list ValidationError.t)
    (xs : list A) (index : nat) :
  (∀ x i, appends r (body x i) (λ _ l, pushed x i l) tt) →
  appends r (Store.forEachFrom body xs index) (λ _ l, Js.forEachFrom pushed xs index l) tt.
Proof.
  intros Hbody. revert index. induction xs as [|x xs IH]; intros index; cbn.
  - apply appends_ret.
  - apply (appends_bind r _ _ (λ _ l, pushed x index l)
             (λ _ l, Js.forEachFrom pushed xs (S index) l) tt tt); [apply Hbody | apply IH].
Qed.

Lemma appends_checkWitness (r : Store.ref) (witness : Witness.t) (index : nat) :
  appends r (Store.checkWitness r witness index) (λ _ l, checkWitness witness index l) tt.
Proof.
  unfold Store.checkWitness, checkWitness.
  apply appends_if; [apply appends_push | apply appends_ret].
Qed.

Lemma validatePersonalInjury_run incident w :
  Store.run (Store.validatePersonalInjury incident) w
  = (length w.(Store.arrays),
     Store.mkWorld w.(Store.clock) (w.(Store.arrays) ++ [validatePersonalInjury incident])).
Proof.
  unfold Store.validatePersonalInjury, validatePersonalInjury.
  destruct (injuryDetails incident ≫= InjuryDetails.bodyPartsAffected) as [[|part parts]|];
    cbv beta iota zeta;
    (etrans; [eapply run_newArray; intros r; appends_steps | reflexivity]).
Qed.

Lemma validatePublicLiability_run incident w :
  Store.run (Store.validatePublicLiability incident) w
  = (length w.(Store.arrays),
     Store.mkWorld w.(Store.clock) (w.(Store.arrays) ++ [validatePublicLiability incident])).
Proof.
  unfold Store.validatePublicLiability, validatePublicLiability. cbv beta iota zeta.
  etrans; [eapply run_newArray; intros r; appends_steps | reflexivity].
Qed.

Lemma validatePropertyDamage_run incident w :
  Store.run (Store.validatePropertyDamage incident) w
  = (length w.(Store.arrays),
     Store.mkWorld w.(Store.clock) (w.(Store.arrays) ++ [validatePropertyDamage incident])).
Proof.
  unfold Store.validatePropertyDamage, validatePropertyDamage. cbv beta iota zeta.
  etrans; [eapply run_newArray; intros r; appends_steps | reflexivity].
Qed.

Lemma validateVehicleIncident_run incident w :
  Store.run (Store.validateVehicleIncident incident) w
  = (length w.(Store.arrays),
     Store.mkWorld w.(Store.clock) (w.(Store.arrays) ++ [validateVehicleIncident incident])).
Proof.
  unfold Store.validateVehicleIncident, validateVehicleIncident. cbv beta iota zeta.
  etrans; [eapply run_newArray; intros r; appends_steps | reflexivity].
Qed.

Lemma generateWarnings_run incident w :
  Store.run (Store.generateWarnings incident) w
  = (length w.(Store.arrays),
     Store.mkWorld w.(Store.clock) (w.(Store.arrays) ++ [generateWarnings incident])).
Proof.
  unfold Store.generateWarnings, generateWarnings, Store.forEach, Js.forEach.
  destruct (witnesses incident) as [[|witness rest]|],
    (attachments incident) as [[|attachment others]|];
    cbv beta iota zeta;
    (etrans;
     [ eapply run_newArray; intros r;
       repeat first
         [ apply appends_ret
         | apply appends_push
         | apply appends_if
         | apply (appends_forEachFrom r _ checkWitness), appends_checkWitness
         | eapply appends_bind ]
     | reflexivity ]).
Qed.

(** Reading and spreading arrays *)
Lemma elements_middle now front l back :
  Store.elements (length front) (Store.mkWorld now (front ++ l :: back)) = l.
Proof. unfold Store.elements. cbn. by rewrite list_lookup_middle. Qed.

Lemma pushAll_run now front l mid l' back :
  Store.run (Store.pushAll (length front) (length (front ++ l :: mid)))
    (Store.mkWorld now ((front ++ l :: mid) ++ l' :: back))
  = (tt, Store.mkWorld now (front ++ (l ++ l') :: mid ++ l' :: back)).
Proof.
  unfold Store.pushAll. cbn [Store.run Store.clock Store.arrays].
  rewrite elements_middle, <- app_assoc. cbn [app].
  rewrite <- (Nat.add_0_r (length front)), alter_app_r. reflexivity.
Qed.

(** [xs.push(...callee(incident))], for a callee that allocates the array
    it returns *)
Lemma run_spread {A : Type} (callee : Store.M Store.ref)
    (findings : Z → list ValidationError.t) (k : unit → Store.M A) now front l mid :
  (∀ w, Store.run callee w
        = (length w.(Store.arrays),
           Store.mkWorld w.(Store.clock) (w.(Store.arrays) ++ [findings w.(Store.clock)]))) →
  Store.run ((callee ≫= λ found, Store.pushAll (length front) found) ≫= k)
    (Store.mkWorld now (front ++ l :: mid))
  = Store.run (k tt) (Store.mkWorld now (front ++ (l ++ findings now) :: mid ++ [findings now])).
Proof.
  intros Hcallee. rewrite !run_bind, Hcallee. cbn [Store.clock Store.arrays].
  by rewrite pushAll_run.
Qed.

Lemma elements_app now front mid l back :
  Store.elements (length (front ++ mid)) (Store.mkWorld now (front ++ mid ++ l :: back)) = l.
Proof. rewrite app_assoc. apply elements_middle. Qed.

(** A call of [validateIncident] returns what the function on lists
    computes from the record and the reading of the clock; it adds arrays to
    the store and changes none that was there. *)
Lemma validateIncident_run incident w :
  ∃ result more,
    Store.run (Store.validateIncident Date_parse endOfLocalDay incident) w
    = (result, Store.mkWorld w.(Store.clock) (w.(Store.arrays) ++ more))
    ∧ Store.observe result (Store.mkWorld w.(Store.clock) (w.(Store.arrays) ++ more))
      = validateIncident Date_parse endOfLocalDay w.(Store.clock) incident
    ∧ result.(Store.ValidationResultObject.errors)
      < result.(Store.ValidationResultObject.warnings)
      < length (w.(Store.arrays) ++ more).
Proof.
  unfold Store.validateIncident, validateIncident.
  rewrite run_bind. cbn [Store.run Store.newArray].
  rewrite (run_spread _ (λ now, validateBasicInfo Date_parse endOfLocalDay now incident)
             _ _ _ _ _ (validateBasicInfo_run incident)).
  destruct (category incident) as [[]|];
    [ rewrite (run_spread _ (λ _, validatePersonalInjury incident)
                 _ _ _ _ _ (validatePersonalInjury_run incident))
    | rewrite (run_spread _ (λ _, validatePropertyDamage incident)
                 _ _ _ _ _ (validatePropertyDamage_run incident))
    | rewrite (run_spread _ (λ _, validateVehicleIncident incident)
                 _ _ _ _ _ (validateVehicleIncident_run incident))
    | rewrite (run_spread _ (λ _, validatePublicLiability incident)
                 _ _ _ _ _ (validatePublicLiability_run incident))
    | rewrite run_bind; cbn [Store.run mret Store.M_ret] ];
    rewrite run_bind, generateWarnings_run; cbn [Store.clock Store.arrays];
    rewrite run_bind; cbn [Store.run Store.arrayLength mret Store.M_ret];
    rewrite <- app_assoc; cbn [app]; rewrite elements_middle;
    (eexists _, _; split; [reflexivity|]; split).
  all: try (cbn [Store.ValidationResultObject.warnings Store.ValidationResultObject.errors];
            rewrite !length_app; cbn; lia).
  all: unfold Store.observe;
    cbn [Store.ValidationResultObject.valid Store.ValidationResultObject.errors
         Store.ValidationResultObject.warnings];
    rewrite elements_middle; f_equal; f_equal.
  - exact (elements_app _ _ [_; _; _] _ []).
  - exact (elements_app _ _ [_; _; _] _ []).
  - exact (elements_app _ _ [_; _; _] _ []).
  - exact (elements_app _ _ [_; _; _] _ []).
  - exact (elements_app _ _ [_; _] _ []).
Qed.


(** The clock is read through the end of its local day only. *)
Lemma validateIncident_same_day now1 now2 incident :
  endOfLocalDay now1 = endOfLocalDay now2 →
  validateIncident Date_parse endOfLocalDay now1 incident
  = validateIncident Date_parse endOfLocalDay now2 incident.
Proof.
  intros Hday. unfold validateIncident, validateBasicInfo. by rewrite Hday.
Qed.

(** Arrays that are in the store stay as they are when it grows. *)
Lemma elements_kept r now now' xs more :
  r < length xs →
  Store.elements r (Store.mkWorld now (xs ++ more)) = Store.elements r (Store.mkWorld now' xs).
Proof. intros Hr. unfold Store.elements. cbn. by rewrite lookup_app_l. Qed.

Lemma observe_kept result now now' xs more :
  result.(Store.ValidationResultObject.errors) < length xs →
  result.(Store.ValidationResultObject.warnings) < length xs →
  Store.observe result (Store.mkWorld now (xs ++ more))
  = Store.observe result (Store.mkWorld now' xs).
Proof.
  intros He Hw. unfold Store.observe.
  by rewrite (elements_kept _ now now' xs more He), (elements_kept _ now now' xs more Hw).
Qed.

Lemma validateIncident_call incident w :
  Store.call (Store.validateIncident Date_parse endOfLocalDay incident) w
  = validateIncident Date_parse endOfLocalDay w.(Store.clock) incident.
Proof.
  unfold Store.call.
  destruct (validateIncident_run incident w) as (result & more & -> & Hobserve & _). done.
Qed.

(** C9.  [validateIncident] is deterministic and order-stable.  A call is
    run in a world: the store of all arrays allocated so far, and the clock.
    Two calls on the same record, in any two worlds whose clocks read the
    same local day (in particular the same reading), return identical
    results: the same [valid] flag and the same errors and warnings, element
    for element and in the same order, namely those that the function on
    lists computes.  This holds whatever arrays the two stores hold, so also
    when the second call is made in the world that the first one left; and
    the second call leaves the result of the first as it was. *)
Theorem validateIncident_deterministic incident w1 w2 :
  endOfLocalDay w1.(Store.clock) = endOfLocalDay w2.(Store.clock) →
  Store.call (Store.validateIncident Date_parse endOfLocalDay incident) w1
  = Store.call (Store.validateIncident Date_parse endOfLocalDay incident) w2
  ∧ Store.call (Store.validateIncident Date_parse endOfLocalDay incident) w1
    = validateIncident Date_parse endOfLocalDay w1.(Store.clock) incident
  ∧ ∀ result after later,
      Store.run (Store.validateIncident Date_parse endOfLocalDay incident) w1
      = (result, after) →
      endOfLocalDay later = endOfLocalDay w1.(Store.clock) →
      let '(result', after') :=
        Store.run (Store.validateIncident Date_parse endOfLocalDay incident)
          (Store.mkWorld later after.(Store.arrays)) in
      Store.observe result' after' = Store.observe result after
      ∧ Store.observe result after' = Store.observe result after.
Proof.
  intros Hday. rewrite !validateIncident_call. split; [|split; [done|]].
  { by apply validateIncident_same_day. }
  intros result after later Hrun Hlater.
  destruct (validateIncident_run incident w1)
    as (result1 & more & Hrun1 & Hobserve & Hrefs).
  rewrite Hrun1 in Hrun. injection Hrun as <- <-.
  destruct (validateIncident_run incident
              (Store.mkWorld later (Store.arrays w1 ++ more)))
    as (result2 & more' & Hrun2 & Hobserve2 & _).
  cbn [Store.arrays Store.clock] in *. rewrite Hrun2, Hobserve2, Hobserve. split.
  - by apply validateIncident_same_day.
  - rewrite <- Hobserve. apply observe_kept; lia.
Qed.

End StoreProperties.

Lemma validateIncident_deterministic_witness :
  let earlier := Store.mkWorld sample_now [] in
  let later := Store.mkWorld (sample_now + 3600000) [[riddorReminder]; []] in
  sample_endOfLocalDay earlier.(Store.clock) = sample_endOfLocalDay later.(Store.clock)
  ∧ Store.call (Store.validateIncident sample_Date_parse sample_endOfLocalDay
                  draftInjuryIncident) earlier
    = Store.call (Store.validateIncident sample_Date_parse sample_endOfLocalDay
                    draftInjuryIncident) later
  ∧ Store.call (Store.validateIncident sample_Date_parse sample_endOfLocalDay
                  draftInjuryIncident) earlier
    = {| ValidationResult.valid := false;
         ValidationResult.errors :=
           [err "injuryDetails.severity" "Injury severity is required" "Injury Details"];
         ValidationResult.warnings :=
           Some [err "attachments" "Consider adding photos or other evidence"
                     "Attachments"] |}.
Proof.
  intros earlier later.
  destruct (validateIncident_deterministic sample_Date_parse sample_endOfLocalDay
              draftInjuryIncident earlier later) as (Hsame & Hvalue & _).
  { vm_compute. reflexivity. }
  split; [vm_compute; reflexivity|]. split; [exact Hsame|].
  rewrite Hvalue. vm_compute. reflexivity.
Defined.

(** ** Properties of the mapper *)

Lemma bind_Normal {A B : Type} (c : completion A) (f : A → completion B) (b : B) :
  c ≫= f = Normal b ↔ ∃ a, c = Normal a ∧ f a = Normal b.
Proof.
  destruct c as [a|]; cbn.
  - split; [eauto | by intros (a' & [= ->] & ?)].
  - split; [done | by intros (a' & ? & _)].
Qed.

(** If a computation returns and its continuation returns on every value,
    the sequence returns. *)
Lemma bind_returns {A B : Type} (c : completion A) (f : A → completion B) :
  (∃ a, c = Normal a) → (∀ a, ∃ b, f a = Normal b) → ∃ b, c ≫= f = Normal b.
Proof. intros [a ->] Hf. apply Hf. Qed.

Lemma mapM_returns {A B : Type} (f : A → completion B) (xs : list A) :
  (∀ x, ∃ y, f x = Normal y) → ∃ ys, mapM f xs = Normal ys.
Proof.
  intros Hf. induction xs as [|x xs [ys IH]]; cbn; [eauto|].
  destruct (Hf x) as [y ->]. cbn. rewrite IH. cbn. eauto.
Qed.

Section MapperProperties.

Variable Date_parse : string → option Z.
Variable Date_local : Z → Z * Z * Z.
Variable number_toString : number → string.
Variable number_toFixed : number → nat → string.

Local Abbreviation formatDate := (formatDateUK Date_parse Date_local).
Local Abbreviation mapToModel :=
  (mapIncidentToPdfModel Date_parse Date_local number_toString number_toFixed).

(** [formatDateUK] returns on every string and on every [Date], valid or
    not. *)
Lemma formatDateUK_returns (date : DateArg) : ∃ s, formatDate (Some date) = Normal s.
Proof.
  unfold formatDateUK. destruct date as [s | d]; cbn.
  - destruct (Date_parse s) as [t|]; [destruct (Date_local t) as [[? ?] ?]|]; eauto.
  - destruct d as [t|]; [destruct (Date_local t) as [[? ?] ?]|]; eauto.
Qed.

Lemma buildCorrectiveActionsTable_returns incident :
  Js.defined incident.(correctiveActions) = true →
  ∃ s, buildCorrectiveActionsTable Date_parse Date_local incident = Normal s.
Proof.
  unfold buildCorrectiveActionsTable. destruct (correctiveActions incident) as [actions|];
    [intros _ | done]. cbn.
  apply bind_returns; [|eauto].
  apply mapM_returns. intros action. apply bind_returns; [|eauto].
  destruct (CorrectiveAction.dueDate action) as [due|]; cbn -[formatDateUK]; [|eauto].
  destruct (negb (Js.eqs due "")); [apply formatDateUK_returns | eauto].
Qed.

Lemma buildSignaturesSection_returns incident :
  Js.defined incident.(signatures) = true →
  ∃ s, buildSignaturesSection Date_parse Date_local incident = Normal s.
Proof.
  unfold buildSignaturesSection. destruct (signatures incident) as [sigs|];
    [intros _ | done]. cbn -[formatDateUK].
  repeat (apply bind_returns;
          [ case_match; [apply bind_returns; [apply formatDateUK_returns | eauto] | eauto]
          | intros ? ]).
  eauto.
Qed.

Lemma buildInjuryDetailsSection_returns incident injury :
  incident.(injuryDetails) = Some injury →
  (∃ s, buildInjuryDetailsSection number_toString incident = Normal s)
  ↔ Js.defined injury.(InjuryDetails.bodyPartsAffected)
    && Js.defined injury.(InjuryDetails.severity) = true.
Proof.
  intros Hinj. unfold buildInjuryDetailsSection. rewrite Hinj. cbn.
  destruct (InjuryDetails.bodyPartsAffected injury), (InjuryDetails.severity injury); cbn;
    (split; [ first [ done | by intros [s Hs] ] | first [ done | eauto ] ]).
Qed.

Lemma declaredFieldsPresent_mapperDomain incident :
  declaredFieldsPresent incident = true → mapperDomain incident = true.
Proof.
  unfold declaredFieldsPresent, mapperDomain. rewrite !andb_true_iff.
  intros Htyped. destruct_and!.
  destruct (reportedBy incident); [|done].
  destruct (incidentDescription incident); [|done].
  repeat split; try done.
  destruct (category incident) as [[]|]; try done.
  destruct (injuryDetails incident) as [injury|]; [|done].
  rewrite !andb_true_iff in *. destruct_and!. done.
Qed.

(** The mapper returns a model on every record of its domain. *)
Lemma mapIncidentToPdfModel_returns now incident options :
  mapperDomain incident = true →
  ∃ model, mapToModel now incident options = Normal model.
Proof.
  unfold mapperDomain. rewrite !andb_true_iff. intros Hdomain. destruct_and!.
  unfold mapIncidentToPdfModel. cbv zeta.
  destruct (dateOfIncident incident) as [date|]; [|done].
  destruct (timeOfIncident incident) as [time|]; [|done].
  destruct (reportedBy incident) as [reporter|]; [|done].
  apply bind_returns; [apply formatDateUK_returns | intros ?].
  apply bind_returns; [cbn; eauto | intros ?].
  apply bind_returns; [cbn; eauto | intros ?].
  apply bind_returns; [|intros ?].
  { split_guard Hcond. apply andb_true_iff in Hcond as [Hcat%bool_decide_eq_true Hinj].
    destruct (injuryDetails incident) as [injury|] eqn:Hdetails; [|done].
    rewrite Hcat in *.
    destruct (proj2 (buildInjuryDetailsSection_returns incident injury Hdetails))
      as [s ->]; [done|]. cbn. eauto. }
  apply bind_returns; [|intros ?].
  { split_guard Hcond. apply andb_true_iff in Hcond as [_ Hsub].
    unfold buildPropertyDamageSection.
    destruct (propertyDamageDetails incident); [cbn; eauto | done]. }
  apply bind_returns; [|intros ?].
  { split_guard Hcond. apply andb_true_iff in Hcond as [_ Hsub].
    unfold buildVehicleDetailsSection.
    destruct (vehicleDetails incident); [cbn; eauto | done]. }
  apply bind_returns; [|intros ?].
  { split_guard Hcond. apply andb_true_iff in Hcond as [_ Hsub].
    unfold buildPublicLiabilitySection.
    destruct (publicLiabilityDetails incident); [cbn; eauto | done]. }
  apply bind_returns; [|intros ?].
  { unfold buildIncidentDescriptionSection.
    destruct (incidentDescription incident); [cbn; eauto | done]. }
  apply bind_returns; [|intros ?].
  { unfold buildWitnessesSection. destruct (witnesses incident) as [[|w ws]|]; cbn; eauto. }
  apply bind_returns; [apply formatDateUK_returns | intros ?].
  apply bind_returns; [apply formatDateUK_returns | intros ?].
  apply bind_returns; [|intros ?].
  { split_guard Hcond. apply andb_true_iff in Hcond as [_ Hsub].
    unfold buildRootCauseSection.
    destruct (rootCauseAnalysis incident); [cbn; eauto | done]. }
  apply bind_returns; [|intros ?].
  { split_guard Hcond. apply andb_true_iff in Hcond as [_ Hsub].
    destruct (buildCorrectiveActionsTable_returns incident Hsub) as [s ->]. cbn. eauto. }
  apply bind_returns; [|intros ?].
  { split_guard Hcond. apply andb_true_iff in Hcond as [_ Hsub].
    destruct (buildSignaturesSection_returns incident Hsub) as [s ->]. cbn. eauto. }
  eauto.
Qed.

(** Conversely, when the mapper returns, the record is in its domain: on
    every other record it raises a [TypeError]. *)
Lemma mapIncidentToPdfModel_returns_only_on_domain now incident options model :
  mapToModel now incident options = Normal model → mapperDomain incident = true.
Proof.
  unfold mapIncidentToPdfModel, mapperDomain. cbv zeta. intros H.
  apply bind_Normal in H as (date & Hdate & H).
  apply bind_Normal in H as (time & Htime & H).
  apply bind_Normal in H as (reporter & Hreporter & H).
  apply bind_Normal in H as (sections1 & Hinjury & H).
  apply bind_Normal in H as (sections2 & _ & H).
  apply bind_Normal in H as (sections3 & _ & H).
  apply bind_Normal in H as (sections4 & _ & H).
  apply bind_Normal in H as (description & Hdescription & _).
  destruct (dateOfIncident incident); [|done].
  destruct (timeOfIncident incident); [|done].
  destruct (reportedBy incident); [|done].
  unfold buildIncidentDescriptionSection in Hdescription.
  destruct (incidentDescription incident); [|done].
  cbn [Js.defined andb].
  destruct (category incident) as [[]|]; try done.
  destruct (injuryDetails incident) as [injury|] eqn:Hdetails; [|done].
  cbn in Hinjury. apply bind_Normal in Hinjury as (injurySection & Hsection & _).
  apply (buildInjuryDetailsSection_returns incident injury Hdetails). eauto.
Qed.


(** The attachments section of a model that the mapper returns *)
Lemma mapIncidentToPdfModel_attachments now incident options model :
  mapToModel now incident options = Normal model →
  model.(PdfIncidentModel.attachmentsSection) =
    if options.(PdfExportOptions.includeAttachments)
    then
      match incident.(attachments) with
      | None | Some [] => None
      | Some attachments =>
          Some {| PdfAttachmentSection.title := "Attachments";
                  PdfAttachmentSection.attachments :=
                    map (λ a, {| PdfAttachment.uri := a.(Attachment.uri);
                                 PdfAttachment.caption := a.(Attachment.caption) |})
                        attachments |}
      end
    else None.
Proof.
  unfold mapIncidentToPdfModel. cbv zeta. intros H.
  repeat (apply bind_Normal in H as (? & _ & H)).
  by injection H as <-.
Qed.


















(** C8.  For a record whose attachments list is absent or empty, and for
    every export profile (so also with [includeAttachments = true]), a model
    returned by [mapIncidentToPdfModel] has no attachments section; and the
    mapper does return a model when the declared fields of the record are
    present. *)
Theorem no_attachments_no_section now incident options :
  incident.(attachments) = None ∨ incident.(attachments) = Some [] →
  (∀ model, mapToModel now incident options = Normal model →
            model.(PdfIncidentModel.attachmentsSection) = None)
  ∧ (declaredFieldsPresent incident = true →
     ∃ model, mapToModel now incident options = Normal model
              ∧ model.(PdfIncidentModel.attachmentsSection) = None).
Proof.
  intros Hnone.
  assert (Hsection : ∀ model, mapToModel now incident options = Normal model →
                              model.(PdfIncidentModel.attachmentsSection) = None).
  { intros model ->%mapIncidentToPdfModel_attachments.
    destruct Hnone as [-> | ->]; by destruct (PdfExportOptions.includeAttachments options). }
  split; [done|]. intros Htyped.
  destruct (mapIncidentToPdfModel_returns now incident options
              (declaredFieldsPresent_mapperDomain incident Htyped)) as [model Hmodel].
  eauto.
Qed.

End MapperProperties.


Lemma no_attachments_no_section_witness :
  sampleInjuryIncident.(attachments) = None
  ∧ fullReportOptions.(PdfExportOptions.includeAttachments) = true
  ∧ ∃ model,
      mapIncidentToPdfModel sample_Date_parse sample_Date_local sample_number_toString
        sample_number_toFixed sample_now sampleInjuryIncident fullReportOptions
      = Normal model
      ∧ model.(PdfIncidentModel.attachmentsSection) = None.
Proof.
  split; [reflexivity|]. split; [reflexivity|].
  apply (no_attachments_no_section sample_Date_parse sample_Date_local
           sample_number_toString sample_number_toFixed sample_now sampleInjuryIncident
           fullReportOptions (or_introl eq_refl)).
  reflexivity.
Defined.

(** Outside the declared type the mapper is partial: on a personal-injury
    draft whose severity is not set, the injury section reads
    [injury.severity.toUpperCase()] and raises. *)
Example mapIncidentToPdfModel_draft_without_severity :
  declaredFieldsPresent draftInjuryIncident = false
  ∧ mapIncidentToPdfModel sample_Date_parse sample_Date_local sample_number_toString
      sample_number_toFixed sample_now draftInjuryIncident fullReportOptions = TypeError.
Proof. split; reflexivity. Qed.

(** ** Properties of the page-flow renderer *)

Section RendererProperties.

Local Open Scope Q_scope.


Lemma Qgtb_true (a b : Q) : Qgtb a b = true ↔ b < a.
Proof.
  unfold Qgtb. rewrite negb_true_iff. split.
  - intros Hle. apply Qnot_le_lt. intros H%Qle_bool_iff. congruence.
  - intros Hlt. destruct (Qle_bool a b) eqn:Hle; [|done].
    apply Qle_bool_iff in Hle. by apply Qlt_not_le in Hlt.
Qed.


Lemma newPageIfBelow_breaks (limit : Q) (doc : Doc) (yPos : Q) :
  limit < yPos → newPageIfBelow limit (doc, yPos) = (doc ++ [addPage], MARGIN_TOP).
Proof. intros H%Qgtb_true. unfold newPageIfBelow. by rewrite H. Qed.

Lemma newPageIfBelow_breaks_iff (limit : Q) (doc : Doc) (yPos : Q) :
  newPageIfBelow limit (doc, yPos) = (doc ++ [addPage], MARGIN_TOP) ↔ limit < yPos.
Proof.
  split; [|apply newPageIfBelow_breaks].
  unfold newPageIfBelow. destruct (Qgtb yPos limit) eqn:Hgt.
  - intros _. by apply Qgtb_true.
  - intros [= Hdoc _]. apply (f_equal length) in Hdoc.
    rewrite length_app in Hdoc. cbn in Hdoc. lia.
Qed.



Lemma pagesAdded_app (doc1 doc2 : Doc) :
  pagesAdded (doc1 ++ doc2) = (pagesAdded doc1 + pagesAdded doc2)%nat.
Proof. unfold pagesAdded. by rewrite List.filter_app, length_app. Qed.

Lemma drawSectionRow_no_page (row : Row.t) (yPos : Q) :
  pagesAdded (drawSectionRow row yPos) = 0%nat.
Proof. reflexivity. Qed.

Lemma drawCells_no_page (cells : list (option string)) (colWidth width : number)
    (yPos : Q) (doc : Doc) (xPos : number) :
  pagesAdded (fst (drawCells cells colWidth width yPos (doc, xPos))) = pagesAdded doc.
Proof.
  unfold drawCells. revert doc xPos.
  induction cells as [|cell cells IH]; intros doc xPos; cbn; [done|].
  rewrite IH, pagesAdded_app. cbn. lia.
Qed.

(** The host's page buffer *)
Variable bufferedPageRange_count : Doc → nat.
































End RendererProperties.

(** No threshold of the layout is a whole number of points. *)
Example thresholds_not_whole :
  isInteger SECTION_TITLE_THRESHOLD = false ∧ isInteger SECTION_ROW_THRESHOLD = false
  ∧ isInteger TABLE_TITLE_THRESHOLD = false ∧ isInteger TABLE_ROW_THRESHOLD = false
  ∧ isInteger SIGNATURES_THRESHOLD = false.
Proof. repeat split. Qed.

Example sampleModel_mapped :
  mapIncidentToPdfModel sample_Date_parse sample_Date_local sample_number_toString
    sample_number_toFixed sample_now sampleExportIncident fullReportOptions
  = Normal sampleModel
  ∧ declaredFieldsPresent sampleExportIncident = true
  ∧ (validateIncidentForPDF sample_Date_parse sample_endOfLocalDay sample_now
       sampleExportIncident fullReportOptions).(ValidationResult.valid) = true.
Proof. vm_compute. done. Qed.

